(** * vbfml: the multi-batch buffer and the sequential multi-file reader

    Part I embeds [MultiBatchBuffer] of [vbfml/util.py]: a dataclass holding a
    cached pandas table and the inclusive range of batch indices it serves.
    Part II models the sequential reader that the tests of
    [vbfml/tests/test_datagen.py] exercise.

    Python integers are unbounded, so they are [Z]; row counts that can never
    be negative are [nat].  Methods that assign to [self] or raise are
    computations in a small state-and-exception monad. *)

From Stdlib Require Import String.
From Stdlib Require Import ZArith List Lia Bool.
From Stdlib Require Import Permutation Sorted.
Import ListNotations.
Local Open Scope Z_scope.

(** ** Exceptions and methods *)

Inductive exn : Type :=
| IndexError
| ZeroDivisionError
| EOFError.

Inductive outcome (A : Type) : Type :=
| Returns (a : A)
| Raises (e : exn).
Arguments Returns {A} a.
Arguments Raises {A} e.

(** A method of an object whose fields are a value of type [S]: it receives
    [self], and gives back an outcome together with [self] as it left it.  An
    exception keeps the assignments made before it was raised. *)
Definition method (S A : Type) : Type := S -> outcome A * S.

Definition ret {S A : Type} (a : A) : method S A :=
  fun self => (Returns a, self).

Definition raise {S A : Type} (e : exn) : method S A :=
  fun self => (Raises e, self).

Definition bind {S A B : Type} (m : method S A) (k : A -> method S B)
  : method S B :=
  fun self =>
    match m self with
    | (Returns a, self') => k a self'
    | (Raises e, self') => (Raises e, self')
    end.

Definition read_self {S : Type} : method S S :=
  fun self => (Returns self, self).

Definition assign {S : Type} (upd : S -> S) : method S unit :=
  fun self => (Returns tt, upd self).

Declare Scope method_scope.
Delimit Scope method_scope with method.
Notation "x <- m ;; k" := (bind m (fun x => k))
  (at level 61, m at next level, right associativity) : method_scope.
Notation "m ;; k" := (bind m (fun _ => k))
  (at level 61, right associativity) : method_scope.

Definition result_of {S A : Type} (r : outcome A * S) : outcome A := fst r.
Definition self_after {S A : Type} (r : outcome A * S) : S := snd r.

Definition raised {A : Type} (o : outcome A) : bool :=
  match o with
  | Raises _ => true
  | Returns _ => false
  end.

(** Python's [a // b] on integers: floor division ([Z.div] rounds towards
    minus infinity as Python does), [ZeroDivisionError] when [b] is 0. *)
Definition floordiv {S : Type} (a b : Z) : method S Z :=
  if b =? 0 then raise ZeroDivisionError else ret (a / b).

(** ** Part I: [MultiBatchBuffer] ([vbfml/util.py]) *)

Section MultiBatchBufferDef.

Variable Row : Type.

(** A [pd.DataFrame] is its rows in positional order.  The tables handed to
    the buffer carry pandas' default [RangeIndex], so the label of a row is
    its position [0 .. len - 1].  A table with any other index (labels that
    do not start at 0, or shuffled ones) is outside this model. *)
Definition DataFrame : Type := list Row.

Definition len (d : DataFrame) : Z := Z.of_nat (List.length d).

(** [d.loc[start:stop]] on a [RangeIndex].  [.loc] selects by label, and
    pandas documents its slices so: contrary to usual Python slices, both the
    start and the stop are included.  Bounds that are no label of the
    (sorted) index are clipped to it, and [stop < start] selects nothing. *)
Definition loc (d : DataFrame) (start stop : Z) : DataFrame :=
  let lo := Z.max 0 start in
  firstn (Z.to_nat (stop + 1 - lo)) (skipn (Z.to_nat lo) d).

(** The positional half-open range [[start, stop)] of a table, which is what
    the specification of [get_batch_df] speaks of. *)
Definition rows_between (d : DataFrame) (start stop : Z) : DataFrame :=
  let lo := Z.max 0 start in
  firstn (Z.to_nat (stop - lo)) (skipn (Z.to_nat lo) d).

(** The dataclass; [df = None] is [None]. *)
Record MultiBatchBuffer : Type := mkMultiBatchBuffer {
  df : option DataFrame;
  batch_size : Z;
  min_batch : Z;
  max_batch : Z
}.

(** [MultiBatchBuffer(batch_size=bs)]: the other fields take their defaults. *)
Definition new_buffer (bs : Z) : MultiBatchBuffer :=
  {| df := None; batch_size := bs; min_batch := -1; max_batch := -1 |}.

(** [MultiBatchBuffer()] *)
Definition default_buffer : MultiBatchBuffer := new_buffer 1.

Definition set_df (v : option DataFrame) (self : MultiBatchBuffer) :=
  {| df := v; batch_size := batch_size self;
     min_batch := min_batch self; max_batch := max_batch self |}.

Definition set_min_batch (v : Z) (self : MultiBatchBuffer) :=
  {| df := df self; batch_size := batch_size self;
     min_batch := v; max_batch := max_batch self |}.

Definition set_max_batch (v : Z) (self : MultiBatchBuffer) :=
  {| df := df self; batch_size := batch_size self;
     min_batch := min_batch self; max_batch := v |}.

Local Open Scope method_scope.

(** [def set_multibatch(self, df, min_batch)] *)
Definition set_multibatch (d : DataFrame) (mb : Z)
  : method MultiBatchBuffer unit :=
  assign (set_df (Some d)) ;;
  assign (set_min_batch mb) ;;
  self <- read_self ;;
  q <- floordiv (len d) (batch_size self) ;;
  assign (set_max_batch (mb + q)).

(** [def __contains__(self, batch_index)] *)
Definition __contains__ (batch_index : Z) : method MultiBatchBuffer bool :=
  self <- read_self ;;
  match df self with
  | None => ret false
  | Some d =>
      if len d =? 0 then ret false
      else if batch_index <? 0 then ret false
      else ret ((min_batch self <=? batch_index)
                && (batch_index <=? max_batch self))
  end.

(** [batch_index in self]: the boolean that [__contains__] returns. *)
Definition contains (self : MultiBatchBuffer) (batch_index : Z) : bool :=
  match result_of (__contains__ batch_index self) with
  | Returns b => b
  | Raises _ => false
  end.

(** [def clear(self)] *)
Definition clear : method MultiBatchBuffer unit :=
  assign (set_df None) ;;
  assign (set_min_batch (-1)) ;;
  assign (set_max_batch (-1)).

(** [def get_batch_df(self, batch_index)].  After the membership test [df]
    is a table; the [None] branch below is never reached. *)
Definition get_batch_df (batch_index : Z)
  : method MultiBatchBuffer DataFrame :=
  present <- __contains__ batch_index ;;
  if negb present then raise IndexError
  else
    self <- read_self ;;
    match df self with
    | None => raise IndexError
    | Some d =>
        let row_start := batch_index - min_batch self in
        let row_stop := Z.min (row_start + batch_size self) (len d) in
        ret (loc d row_start row_stop)
    end.

End MultiBatchBufferDef.

Arguments df {Row} _.
Arguments batch_size {Row} _.
Arguments min_batch {Row} _.
Arguments max_batch {Row} _.
Arguments mkMultiBatchBuffer {Row} _ _ _ _.
Arguments new_buffer {Row} bs.
Arguments default_buffer {Row}.
Arguments len {Row} d.
Arguments loc {Row} d start stop.
Arguments rows_between {Row} d start stop.
Arguments set_multibatch {Row} d mb _.
Arguments contains {Row} self batch_index.
Arguments __contains__ {Row} batch_index _.
Arguments clear {Row} _.
Arguments get_batch_df {Row} batch_index _.

(** A table of [n] rows whose row at position [i] holds the number [i]. *)
Definition range_table (n : nat) : DataFrame Z := map Z.of_nat (seq 0 n).

(** The buffer of the 20-row scenario: [MultiBatchBuffer(batch_size=10)]
    after [set_multibatch(df, 3)] with a table of 20 rows. *)
Definition buffer_20_3_10 : MultiBatchBuffer Z :=
  self_after (set_multibatch (range_table 20) 3 (new_buffer 10)).


(** ** Part II: the sequential multi-file reader *)

Section ReaderDef.

(** A stored row. *)
Variable Row : Type.

(** Modelled from the spec: the storage backend of section 6, which is
    outside the repository.  A backing file is its rows in on-file physical
    order; a handle reports [row_count()] and reads the rows [[start, stop)]. *)
Definition BackingFile : Type := list Row.

Definition row_count (f : BackingFile) : nat := List.length f.

Definition read_range (f : BackingFile) (start stop : nat) : list Row :=
  firstn (stop - start) (skipn start f).

(** Modelled from the spec: the cursor position of section 3,
    (file_index, intra_file_row_offset). *)
Record Cursor : Type := mkCursor {
  file_index : nat;
  intra_file_row_offset : nat
}.

(** Modelled from the spec: MultiFileCursor of section 4.1
    ([vbfml/input/datagen.py] is not among the sources): the file list,
    fixed at construction, and the read position. *)
Record MultiFileCursor : Type := mkMultiFileCursor {
  files : list BackingFile;
  position : Cursor
}.

Definition open_files (fs : list BackingFile) : MultiFileCursor :=
  {| files := fs; position := mkCursor 0 0 |}.

Definition set_position (c : Cursor) (self : MultiFileCursor) :=
  {| files := files self; position := c |}.

(** Modelled from the spec: the loop of [read_rows] (section 4.1), run on a
    scratch copy [(fi, off)] of the position; [rest] are the files from
    [fi] on and [n] the rows still to collect.  Each round pulls what the
    file at [fi] still has, up to [n]; a file read to its end is left for
    the next one with the offset back at 0 (so that reading all remaining
    rows ends at [file_index = length of the file list]); the loop ends when
    [n] rows are collected, or with [None] when no files remain. *)
Fixpoint pull_rows (rest : list BackingFile) (fi off n : nat)
  : option (list Row * Cursor) :=
  match n with
  | O => Some ([], mkCursor fi off)
  | S _ =>
      match rest with
      | [] => None
      | f :: rest' =>
          let k := Nat.min n (row_count f - off) in
          let rows := read_range f off (off + k) in
          if Nat.eqb (off + k) (row_count f)
          then match pull_rows rest' (S fi) 0 (n - k) with
               | Some (more, c) => Some (rows ++ more, c)
               | None => None
               end
          else Some (rows, mkCursor fi (off + k))
      end
  end.

Local Open Scope method_scope.

(** Modelled from the spec: [read_rows(n)] with its all-or-nothing overflow
    policy: the position is assigned only when the [n] rows were collected;
    otherwise the call fails with the end-of-data error, which the tests
    name [EOFError]. *)
Definition read_rows (n : nat) : method MultiFileCursor (list Row) :=
  self <- read_self ;;
  let fi := file_index (position self) in
  let off := intra_file_row_offset (position self) in
  match pull_rows (skipn fi (files self)) fi off n with
  | None => raise EOFError
  | Some (rows, c) => assign (set_position c) ;; ret rows
  end.

(** Successive reads, as a training loop issues them; the first failure
    ends the run. *)
Fixpoint read_all (ns : list nat) : method MultiFileCursor (list (list Row)) :=
  match ns with
  | [] => ret []
  | n :: ns' =>
      t <- read_rows n ;;
      ts <- read_all ns' ;;
      ret (t :: ts)
  end.

(** The rows of all files, in file-list order then on-file order. *)
Definition all_rows (fs : list BackingFile) : list Row := concat fs.

Definition total_rows (fs : list BackingFile) : nat :=
  List.length (all_rows fs).

(** The logical read position: how many rows lie before the cursor. *)
Definition rows_consumed (self : MultiFileCursor) : nat :=
  (total_rows (firstn (file_index (position self)) (files self))
   + intra_file_row_offset (position self))%nat.

Definition rows_remaining (self : MultiFileCursor) : nat :=
  (total_rows (files self) - rows_consumed self)%nat.

(** Where the scratch position [c] of [pull_rows] stands in the whole file
    list [pre ++ rest], [pre] being the files already left behind. *)
Definition lands (pre rest : list BackingFile) (c : Cursor)
           (consumed : nat) : Prop :=
  (file_index c <= List.length (pre ++ rest))%nat
  /\ (intra_file_row_offset c
      <= row_count (nth (file_index c) (pre ++ rest) []))%nat
  /\ (total_rows (firstn (file_index c) (pre ++ rest))
      + intra_file_row_offset c = consumed)%nat.

(** The data-model invariant of the position: [file_index] is within the
    file list or equals its length, and the offset lies within the file it
    points into (0 at the exhausted position). *)
Definition cursor_ok (self : MultiFileCursor) : Prop :=
  (file_index (position self) <= List.length (files self))%nat /\
  (intra_file_row_offset (position self)
   <= row_count (nth (file_index (position self)) (files self) []))%nat.

End ReaderDef.

Arguments row_count {Row} f.
Arguments read_range {Row} f start stop.
Arguments mkMultiFileCursor {Row} _ _.
Arguments files {Row} _.
Arguments position {Row} _.
Arguments open_files {Row} fs.
Arguments set_position {Row} c self.
Arguments pull_rows {Row} rest fi off n.
Arguments read_rows {Row} n _.
Arguments read_all {Row} ns _.
Arguments all_rows {Row} fs.
Arguments total_rows {Row} fs.
Arguments rows_consumed {Row} self.
Arguments rows_remaining {Row} self.
Arguments cursor_ok {Row} self.
Arguments lands {Row} pre rest c consumed.

Section DatasetReaderDef.

(** The value held in one column of one row. *)
Variable Value : Type.

(** A stored row gives a value to every column name. *)
Definition Event : Type := string -> Value.

(** A two-dimensional array, row-major: one list per row. *)
Definition Array : Type := list (list Value).

Definition has_shape (a : Array) (rows cols : nat) : Prop :=
  List.length a = rows /\ Forall (fun r => List.length r = cols) a.

(** Modelled from the spec: BatchedDatasetReader of section 4.2: the schema
    (feature column names and the one label column), fixed at construction,
    over a MultiFileCursor. *)
Record BatchedDatasetReader : Type := mkBatchedDatasetReader {
  feature_columns : list string;
  label_column : string;
  cursor : MultiFileCursor Event
}.

Definition set_cursor (c : MultiFileCursor Event) (self : BatchedDatasetReader) :=
  {| feature_columns := feature_columns self;
     label_column := label_column self;
     cursor := c |}.

(** Modelled from the spec: the two blocks that [read_events] cuts out of a
    row table (section 4.2): the feature columns, in schema order, of every
    row, and the label column of every row. *)
Definition features_of (self : BatchedDatasetReader) (table : list Event)
  : Array :=
  map (fun ev => map ev (feature_columns self)) table.

Definition labels_of (self : BatchedDatasetReader) (table : list Event)
  : Array :=
  map (fun ev => [ev (label_column self)]) table.

(** Runs a method of the cursor on the [cursor] field of the reader. *)
Definition on_cursor {A : Type} (m : method (MultiFileCursor Event) A)
  : method BatchedDatasetReader A :=
  fun self =>
    let (r, c) := m (cursor self) in (r, set_cursor c self).

Local Open Scope method_scope.

(** Modelled from the spec: [read_events(n)] delegates to [read_rows(n)],
    lets its failure through, and on success splits the columns of the row
    table into the features block and the labels block, row order kept. *)
Definition read_events (n : nat) : method BatchedDatasetReader (Array * Array) :=
  table <- on_cursor (read_rows n) ;;
  self <- read_self ;;
  ret (features_of self table, labels_of self table).

End DatasetReaderDef.

Arguments has_shape {Value} a rows cols.
Arguments mkBatchedDatasetReader {Value} _ _ _.
Arguments feature_columns {Value} _.
Arguments label_column {Value} _.
Arguments cursor {Value} _.
Arguments features_of {Value} self table.
Arguments labels_of {Value} self table.
Arguments set_cursor {Value} c self.
Arguments read_events {Value} n _.

(** The fixture of [test_datagen.py]: two files of ten events each, branches
    [a] and [b]; the event [i] of a file holds [i] in every column. *)
Definition test_file (offset : nat) : BackingFile (Event Z) :=
  map (fun i => fun _ : string => Z.of_nat i) (seq offset 10).

Definition test_reader : BatchedDatasetReader Z :=
  mkBatchedDatasetReader ["a"; "b"]%string "weight"%string
    (open_files [test_file 0; test_file 10]).


(** The cursor of the fixture standing on the last event of the first file. *)
Definition cursor_at_9 : MultiFileCursor (Event Z) :=
  mkMultiFileCursor [test_file 0; test_file 10] (mkCursor 0 9).

(** ** Part III: [ModelDB] ([vbfml/util.py]) *)

(** The exceptions of the dictionary code: a failed [assert], and a
    subscript with a key that the dict does not have. *)
Inductive dict_exn : Type :=
| AssertionError
| KeyError.

(** Methods that raise those: [inl] is a raised exception, [inr] a returned
    value, beside [self] as the method left it. *)
Definition checked (S A : Type) : Type := S -> (dict_exn + A) * S.

Definition give {S A : Type} (a : A) : checked S A :=
  fun self => (inr a, self).

Definition fail {S A : Type} (e : dict_exn) : checked S A :=
  fun self => (inl e, self).

Definition and_then {S A B : Type} (m : checked S A) (k : A -> checked S B)
  : checked S B :=
  fun self =>
    match m self with
    | (inr a, self') => k a self'
    | (inl e, self') => (inl e, self')
    end.

Definition this {S : Type} : checked S S :=
  fun self => (inr self, self).

Definition store {S : Type} (upd : S -> S) : checked S unit :=
  fun self => (inr tt, upd self).

Declare Scope checked_scope.
Delimit Scope checked_scope with checked.
Notation "x <- m ;; k" := (and_then m (fun x => k))
  (at level 61, m at next level, right associativity) : checked_scope.
Notation "m ;; k" := (and_then m (fun _ => k))
  (at level 61, right associativity) : checked_scope.

(** [assert cond] *)
Definition py_assert {S : Type} (cond : bool) : checked S unit :=
  if cond then give tt else fail AssertionError.

(** A key of the loaded YAML mapping, or the [model] field: a string, or
    [None]. *)
Definition PyKey : Type := option string.

Definition key_eqb (a b : PyKey) : bool :=
  match a, b with
  | None, None => true
  | Some x, Some y => String.eqb x y
  | _, _ => false
  end.

Definition is_None (k : PyKey) : bool :=
  match k with
  | None => true
  | Some _ => false
  end.

(** A [dict]: its items in insertion order; a key is looked up at its first
    item (a Python dict holds every key once). *)
Definition Dict (V : Type) : Type := list (PyKey * V).

Fixpoint dict_get {V : Type} (d : Dict V) (k : PyKey) : option V :=
  match d with
  | [] => None
  | (k', v) :: d' => if key_eqb k k' then Some v else dict_get d' k
  end.

(** [k in d.keys()] *)
Definition dict_has {V : Type} (d : Dict V) (k : PyKey) : bool :=
  match dict_get d k with
  | Some _ => true
  | None => false
  end.

(** [d[k]]: [KeyError] when [k] is no key of [d]. *)
Definition subscript {S V : Type} (d : Dict V) (k : PyKey) : checked S V :=
  match dict_get d k with
  | Some v => give v
  | None => fail KeyError
  end.

Section ModelDBDef.

(** What the YAML file holds for one feature of one model. *)
Variable Value : Type.

(** The dataclass.  [data] is what [YamlLoader(infile).load()] returned in
    [__post_init__]: a mapping from model names to mappings from feature
    names to values.  An empty YAML file, for which the loader returns
    [None] instead of a mapping, is outside this model. *)
Record ModelDB : Type := mkModelDB {
  infile : string;
  data : Dict (Dict Value);
  model : PyKey
}.

(** [ModelDB(infile)] once [__post_init__] has stored the [loaded] mapping. *)
Definition new_ModelDB (path : string) (loaded : Dict (Dict Value)) : ModelDB :=
  {| infile := path; data := loaded; model := None |}.

Definition with_model (m : PyKey) (self : ModelDB) : ModelDB :=
  {| infile := infile self; data := data self; model := m |}.

Local Open Scope checked_scope.

(** [def _check_model_is_valid(self, model)] *)
Definition _check_model_is_valid (m : PyKey) : checked ModelDB unit :=
  self <- this ;;
  py_assert (dict_has (data self) m || is_None m).

(** [def _check_feature_is_valid(self, feature)] *)
Definition _check_feature_is_valid (feature : PyKey) : checked ModelDB unit :=
  self <- this ;;
  features <- subscript (data self) (model self) ;;
  py_assert (dict_has features feature).

(** [def set_model(self, model)] *)
Definition set_model (m : PyKey) : checked ModelDB unit :=
  _check_model_is_valid m ;;
  store (with_model m).

(** [def clear_model(self)] *)
Definition clear_model : checked ModelDB unit :=
  set_model None.

(** [def get(self, feature)] *)
Definition get (feature : PyKey) : checked ModelDB Value :=
  _check_feature_is_valid feature ;;
  self <- this ;;
  features <- subscript (data self) (model self) ;;
  subscript features feature.

End ModelDBDef.

Arguments mkModelDB {Value} _ _ _.
Arguments infile {Value} _.
Arguments data {Value} _.
Arguments model {Value} _.
Arguments new_ModelDB {Value} path loaded.
Arguments with_model {Value} m self.
Arguments _check_model_is_valid {Value} m _.
Arguments _check_feature_is_valid {Value} feature _.
Arguments set_model {Value} m _.
Arguments clear_model {Value} _.
Arguments get {Value} feature _.

(** A small database: two models with two features each. *)
Definition example_db : ModelDB Z :=
  new_ModelDB "models.yml"
    [ (Some "dense"%string,
       [(Some "epochs"%string, 10); (Some "batch_size"%string, 50)]);
      (Some "conv"%string,
       [(Some "epochs"%string, 20); (Some "batch_size"%string, 16)]) ].

(** ** Part IV: helpers of [vbfml/training/plot.py] *)

Section MergeFlowBinsDef.

(** The element type of the array and the [+] of that type. *)
Variable V : Type.
Variable add : V -> V -> V.

(** A one-dimensional [np.ndarray] is the list of its elements.  Basic
    slicing gives a VIEW: a window [(view_start, view_size)] on the same
    elements, so that an assignment through the view writes the array. *)
Record View : Type := mkView {
  view_start : nat;
  view_size : nat
}.

(** An integer index into [size] elements: negative indices count from the
    end; out of bounds is [None]. *)
Definition py_index (size : nat) (i : Z) : option nat :=
  if (0 <=? i) && (i <? Z.of_nat size) then Some (Z.to_nat i)
  else if (i <? 0) && (- Z.of_nat size <=? i)
       then Some (Z.to_nat (Z.of_nat size + i))
       else None.

Fixpoint list_set (k : nat) (x : V) (l : list V) : list V :=
  match l, k with
  | [], _ => []
  | _ :: l', O => x :: l'
  | y :: l', S k' => y :: list_set k' x l'
  end.

(** [values[1:-1]] on an array of [n] elements: the [n - 2] elements after
    the first (none when [n <= 2]). *)
Definition slice_1_to_last (values : list V) : View :=
  {| view_start := 1; view_size := List.length values - 2 |}.

Local Open Scope method_scope.

(** [values[i]] *)
Definition getitem (i : Z) : method (list V) V :=
  values <- read_self ;;
  match py_index (List.length values) i with
  | None => raise IndexError
  | Some k =>
      match nth_error values k with
      | Some x => ret x
      | None => raise IndexError
      end
  end.

(** [view[i]] *)
Definition view_getitem (w : View) (i : Z) : method (list V) V :=
  values <- read_self ;;
  match py_index (view_size w) i with
  | None => raise IndexError
  | Some k =>
      match nth_error values (view_start w + k) with
      | Some x => ret x
      | None => raise IndexError
      end
  end.

(** [view[i] = x] *)
Definition view_setitem (w : View) (i : Z) (x : V) : method (list V) unit :=
  match py_index (view_size w) i with
  | None => raise IndexError
  | Some k => assign (list_set (view_start w + k) x)
  end.

(** The elements the view shows. *)
Definition view_elements (w : View) : method (list V) (list V) :=
  values <- read_self ;;
  ret (firstn (view_size w) (skipn (view_start w) values)).

(** [def merge_flow_bins(values)]; [self] is the array [values] the caller
    passed, and the result is what the returned view shows. *)
Definition merge_flow_bins : method (list V) (list V) :=
  values <- read_self ;;
  let new_values := slice_1_to_last values in
  inner_first <- view_getitem new_values 0 ;;
  underflow <- getitem 0 ;;
  view_setitem new_values 0 (add inner_first underflow) ;;
  inner_last <- view_getitem new_values (-1) ;;
  overflow <- getitem (-1) ;;
  view_setitem new_values (-1) (add inner_last overflow) ;;
  view_elements new_values.

(** The sum of an array, from a zero of [add]. *)
Definition total (zero : V) (values : list V) : V :=
  fold_right add zero values.

End MergeFlowBinsDef.

Arguments list_set {V} k x l.
Arguments slice_1_to_last {V} values.
Arguments getitem {V} i _.
Arguments view_getitem {V} w i _.
Arguments view_setitem {V} w i x _.
Arguments view_elements {V} w _.
Arguments merge_flow_bins {V} add _.
Arguments total {V} add zero values.

Section RocInputsDef.

(** A classifier score, and an event weight. *)
Variable Score Weight : Type.

(** The scores of one batch: a two-dimensional array, one row per event and
    one column per class. *)
Definition ScoreBatch : Type := list (list Score).

(** Sequencing of steps that may raise. *)
Definition and_so {A B : Type} (o : outcome A) (k : A -> outcome B)
  : outcome B :=
  match o with
  | Returns a => k a
  | Raises e => Raises e
  end.

(** [arr[:, sclass]]: the column of class [sclass], [IndexError] when the
    rows have no such column. *)
Fixpoint column (arr : ScoreBatch) (sclass : nat) : outcome (list Score) :=
  match arr with
  | [] => Returns []
  | row :: rest =>
      match nth_error row sclass with
      | None => Raises IndexError
      | Some x => and_so (column rest sclass) (fun xs => Returns (x :: xs))
      end
  end.

(** [scores[batch][:, sclass]] *)
Definition batch_column (scores : list ScoreBatch) (batch sclass : nat)
  : outcome (list Score) :=
  match nth_error scores batch with
  | None => Raises IndexError
  | Some arr => column arr sclass
  end.

(** The body of [for batch in range(1, number_batches)] in [plot_ROC], on the
    three variables it reassigns: [sample_weights],
    [predicted_scores_combined] and [validation_scores_combined].
    [np.append(a, b)] is the elements of [a] followed by those of [b]. *)
Fixpoint combine_batches (predicted validation : list ScoreBatch)
         (sclass : nat) (batches : list nat)
         (acc : list Weight * list Score * list Score)
  : outcome (list Weight * list Score * list Score) :=
  match batches with
  | [] => Returns acc
  | batch :: rest =>
      let '(sample_weights, predicted_combined, validation_combined) := acc in
      let sample_weights := sample_weights ++ sample_weights in
      and_so (batch_column predicted batch sclass) (fun p_score =>
      and_so (batch_column validation batch sclass) (fun v_score =>
      combine_batches predicted validation sclass rest
        (sample_weights,
         predicted_combined ++ p_score,
         validation_combined ++ v_score)))
  end.

(** What one round of [for sclass in range(score_classes)] in [plot_ROC]
    hands to [metrics.roc_curve]: the combined validation scores, the
    combined predicted scores and the sample weights.  [weights] are the
    elements of [np.array(self.weights)]; [number_batches] is the length of
    [predicted_scores]. *)
Definition roc_inputs (predicted validation : list ScoreBatch)
           (weights : list Weight) (sclass : nat)
  : outcome (list Score * list Score * list Weight) :=
  let number_batches := List.length predicted in
  and_so (batch_column predicted 0 sclass) (fun p_score =>
  and_so (batch_column validation 0 sclass) (fun v_score =>
  and_so (combine_batches predicted validation sclass
            (seq 1 (number_batches - 1)) (weights, p_score, v_score))
         (fun '(sample_weights, predicted_combined, validation_combined) =>
            Returns (validation_combined, predicted_combined, sample_weights)))).

(** A list of [b] batches that forms a regular array of shape [(b, n, c)],
    which is what [np.array(self.predicted_scores).shape[2]] takes for
    granted. *)
Definition has_shape3 (scores : list ScoreBatch) (b n c : nat) : Prop :=
  List.length scores = b
  /\ Forall (fun arr => List.length arr = n
                        /\ Forall (fun row => List.length row = c) arr) scores.

End RocInputsDef.

Arguments and_so {A B} o k.
Arguments column {Score} arr sclass.
Arguments batch_column {Score} scores batch sclass.
Arguments combine_batches {Score Weight} predicted validation sclass batches acc.
Arguments roc_inputs {Score Weight} predicted validation weights sclass.
Arguments has_shape3 {Score} scores b n c.

(** Three batches of two events with two classes, and one weight per event
    of a batch. *)
Definition three_batches : list (ScoreBatch Z) :=
  [ [[1; 2]; [3; 4]]; [[5; 6]; [7; 8]]; [[9; 10]; [11; 12]] ].

(** [str(key)] of a key that is a string or [None]. *)
Definition py_str (k : PyKey) : string :=
  match k with
  | None => "None"%string
  | Some s => s
  end.

(** [sorted] on strings: Python compares strings by code point, which on the
    bytes of a string is [String.leb]; the sort is stable. *)
Fixpoint insert_sorted (x : string) (l : list string) : list string :=
  match l with
  | [] => [x]
  | y :: l' => if String.leb x y then x :: l else y :: insert_sorted x l'
  end.

Definition sorted (l : list string) : list string :=
  fold_right insert_sorted [] l.

(** The order of [sorted]. *)
Definition str_le (s t : string) : Prop := String.leb s t = true.

(** [def keys_to_list(keys)] *)
Definition keys_to_list (keys : list PyKey) : list string :=
  sorted (map py_str keys).

(** [d.keys()] *)
Definition dict_keys {V : Type} (d : Dict V) : list PyKey := map fst d.

(** [d[k] = v]: the value of an existing key is replaced where it stands, a
    new key is added at the end. *)
Fixpoint dict_set {V : Type} (d : Dict V) (k : PyKey) (v : V) : Dict V :=
  match d with
  | [] => [(k, v)]
  | (k', v') :: d' =>
      if key_eqb k k' then (k', v) :: d' else (k', v') :: dict_set d' k v
  end.

Section PlotterBaseDef.

(** A histogram ([hist.Hist]). *)
Variable Hist : Type.

(** The part of the dataclass [PlotterBase] that its histogram methods use:
    the mapping from sequence types to named histograms, and the two
    attributes that [__post_init__] derives from it.  (The other fields, the
    output directory and the saver take no part in these methods.) *)
Record PlotterBase : Type := mkPlotterBase {
  histograms : Dict (Dict Hist);
  sequence_types : list string;
  histogram_names : list string
}.

(** The loop of [__post_init__]:
    [for sequence_type in self.sequence_types:
       histogram_names.extend(keys_to_list(self.histograms[sequence_type].keys()))] *)
Fixpoint extend_histogram_names (hists : Dict (Dict Hist))
         (types : list string) (names : list string)
  : dict_exn + list string :=
  match types with
  | [] => inr names
  | sequence_type :: rest =>
      match dict_get hists (Some sequence_type) with
      | None => inl KeyError
      | Some named =>
          extend_histogram_names hists rest
            (names ++ keys_to_list (dict_keys named))
      end
  end.

(** [def __post_init__(self)], as far as the two attributes go;
    [sorted(list(set(names)))] is the sorted list of the distinct names. *)
Definition __post_init__ (hists : Dict (Dict Hist))
  : dict_exn + PlotterBase :=
  let types := keys_to_list (dict_keys hists) in
  match extend_histogram_names hists types [] with
  | inl e => inl e
  | inr names =>
      inr {| histograms := hists;
             sequence_types := types;
             histogram_names := sorted (nodup string_dec names) |}
  end.

(** [def get_histogram(self, sequence_type, name)] *)
Definition get_histogram (self : PlotterBase) (sequence_type name : PyKey)
  : dict_exn + Hist :=
  match dict_get (histograms self) sequence_type with
  | None => inl KeyError
  | Some named =>
      match dict_get named name with
      | None => inl KeyError
      | Some h => inr h
      end
  end.

(** The loop of [get_histograms_across_sequences] over the sequence types
    still to visit, [found] being the dict built so far. *)
Fixpoint across_sequences (self : PlotterBase) (name : PyKey)
         (types : list string) (found : Dict Hist) : dict_exn + Dict Hist :=
  match types with
  | [] => inr found
  | sequence_type :: rest =>
      match get_histogram self (Some sequence_type) name with
      | inl e => inl e
      | inr h =>
          across_sequences self name rest
            (dict_set found (Some sequence_type) h)
      end
  end.

(** [def get_histograms_across_sequences(self, histogram_name)] *)
Definition get_histograms_across_sequences (self : PlotterBase)
           (histogram_name : PyKey) : dict_exn + Dict Hist :=
  across_sequences self histogram_name (sequence_types self) [].

End PlotterBaseDef.

Arguments mkPlotterBase {Hist} _ _ _.
Arguments histograms {Hist} _.
Arguments sequence_types {Hist} _.
Arguments histogram_names {Hist} _.
Arguments extend_histogram_names {Hist} hists types names.
Arguments __post_init__ {Hist} hists.
Arguments get_histogram {Hist} self sequence_type name.
Arguments across_sequences {Hist} self name types found.
Arguments get_histograms_across_sequences {Hist} self histogram_name.

(** Histograms of two sequence types; [score_1] exists for training only. *)
Definition example_histograms : Dict (Dict Z) :=
  [ (Some "validation"%string,
     [(Some "score_0"%string, 1); (Some "mjj"%string, 2)]);
    (Some "training"%string,
     [(Some "mjj"%string, 3); (Some "score_1"%string, 4);
      (Some "score_0"%string, 5)]) ].

Definition example_plotter : PlotterBase Z :=
  {| histograms := example_histograms;
     sequence_types := ["training"; "validation"]%string;
     histogram_names := ["mjj"; "score_0"; "score_1"]%string |}.

Section PlotHistoryDef.

(** [os.path.join], of which nothing is assumed. *)
Variable pjoin : string -> string -> string.

(** What [plot_history] does to the file system. *)
Inductive fs_event : Type :=
| Makedirs (path : string)
| Savefig (path : string).

(** The file-system events of [for accuracy_type in accuracy_types] in
    [plot_history(history, outdir)], in order; [outdir] is the variable that
    the body reassigns.  (Drawing on the axes leaves no trace here;
    [os.makedirs] is called each time, a [FileExistsError] being passed
    over.) *)
Fixpoint plot_history_events (accuracy_types : list string) (outdir : string)
  : list fs_event :=
  match accuracy_types with
  | [] => []
  | accuracy_type :: rest =>
      let outdir := pjoin outdir "history" in
      Makedirs outdir
      :: map (fun ext =>
                Savefig (pjoin outdir
                           ("history_" ++ accuracy_type ++ "." ++ ext)%string))
             ["png"; "pdf"]%string
      ++ plot_history_events rest outdir
  end.

(** [outdir] with ["history"] joined on [k] times. *)
Definition nested_history (k : nat) (outdir : string) : string :=
  Nat.iter k (fun dir => pjoin dir "history") outdir.

End PlotHistoryDef.


(** Joining with a slash, as [os.path.join] does for plain relative names. *)
Definition slash_join (dir name : string) : string :=
  (dir ++ "/" ++ name)%string.

(** * Properties *)

(** ** The method monad *)

Lemma bind_returns {S A B : Type} (m : method S A) (k : A -> method S B)
      (self self' : S) (a : A) :
  m self = (Returns a, self') -> bind m k self = k a self'.
Proof. intros Hm. unfold bind. now rewrite Hm. Qed.

Lemma bind_raises {S A B : Type} (m : method S A) (k : A -> method S B)
      (self self' : S) (e : exn) :
  m self = (Raises e, self') -> bind m k self = (Raises e, self').
Proof. intros Hm. unfold bind. now rewrite Hm. Qed.

(** ** Part I: [MultiBatchBuffer] *)

Section MultiBatchBufferFacts.

Context {Row : Type}.
Implicit Types (self : MultiBatchBuffer Row) (d : DataFrame Row).
Implicit Types (i mb : Z).

Lemma len_nonneg d : 0 <= len d.
Proof. unfold len. lia. Qed.

Lemma len_nil : len (@nil Row) = 0.
Proof. reflexivity. Qed.

(** The label-inclusive slice is the half-open range one row longer. *)
Lemma loc_rows_between d start stop :
  loc d start stop = rows_between d start (stop + 1).
Proof. reflexivity. Qed.

Lemma length_rows_between d start stop :
  0 <= start -> start <= stop -> stop <= len d ->
  len (rows_between d start stop) = stop - start.
Proof.
  unfold rows_between, len. intros H0 H1 H2.
  rewrite length_firstn, length_skipn. lia.
Qed.

(** Row [k] of [d.loc[start:stop]] is the row labelled [start + k]. *)
Lemma nth_error_loc d start stop (k : nat) :
  0 <= start -> start + Z.of_nat k <= stop ->
  nth_error (loc d start stop) k = nth_error d (Z.to_nat start + k).
Proof.
  intros H0 Hk. unfold loc.
  rewrite Z.max_r by lia.
  rewrite nth_error_firstn.
  destruct (Nat.ltb_spec k (Z.to_nat (stop + 1 - start))) as [_|Hge]; [|lia].
  now rewrite nth_error_skipn.
Qed.

(** [__contains__] always returns, and leaves [self] as it found it. *)
Lemma contains_run self i :
  __contains__ i self = (Returns (contains self i), self).
Proof.
  unfold contains, result_of, __contains__, bind, read_self, ret. simpl.
  destruct (df self) as [d|]; [|reflexivity].
  destruct (len d =? 0); [reflexivity|].
  destruct (i <? 0); reflexivity.
Qed.

Lemma contains_true_iff self i :
  contains self i = true <->
  exists d, df self = Some d /\ len d <> 0 /\ 0 <= i
            /\ min_batch self <= i <= max_batch self.
Proof.
  unfold contains, result_of, __contains__, bind, read_self, ret. simpl.
  destruct (df self) as [d|]; simpl.
  - destruct (Z.eqb_spec (len d) 0) as [Hz|Hz]; simpl.
    + split; [discriminate|]. intros (d' & Hd & Hne & _). congruence.
    + destruct (Z.ltb_spec i 0) as [Hneg|Hpos]; simpl.
      * split; [discriminate|]. intros (_ & _ & _ & ? & _). lia.
      * rewrite andb_true_iff, !Z.leb_le. split.
        -- intros [? ?]. exists d. repeat split; trivial.
        -- intros (_ & _ & _ & _ & ? & ?). split; trivial.
  - split; [discriminate|]. intros (d' & Hd & _). discriminate.
Qed.

Lemma contains_false_iff self i :
  contains self i = false <->
  df self = None \/ (exists d, df self = Some d /\ len d = 0)
  \/ i < 0 \/ i < min_batch self \/ max_batch self < i.
Proof.
  rewrite <- not_true_iff_false, contains_true_iff. split.
  - intros Hn. destruct (df self) as [d|] eqn:Hd; [|now left].
    destruct (Z.eq_dec (len d) 0) as [Hz|Hz]; [right; left; now exists d|].
    destruct (Z_lt_dec i 0); [tauto|].
    destruct (Z_lt_dec i (min_batch self)); [tauto|].
    destruct (Z_lt_dec (max_batch self) i); [tauto|].
    exfalso. apply Hn. exists d. repeat split; trivial; lia.
  - intros H (d & Hd & Hne & Hi & Hlo & Hhi).
    destruct H as [H|[(d' & Hd' & Hz)|H]]; [congruence|congruence|lia].
Qed.

Lemma set_multibatch_run d mb self :
  batch_size self <> 0 ->
  set_multibatch d mb self =
  (Returns tt,
   {| df := Some d; batch_size := batch_size self; min_batch := mb;
      max_batch := mb + len d / batch_size self |}).
Proof.
  intros Hbs.
  unfold set_multibatch, bind, assign, read_self, floordiv, ret. simpl.
  destruct (Z.eqb_spec (batch_size self) 0) as [Hz|_]; [contradiction|].
  reflexivity.
Qed.

Lemma set_multibatch_zero d mb self :
  batch_size self = 0 ->
  result_of (set_multibatch d mb self) = Raises ZeroDivisionError.
Proof.
  intros Hbs.
  unfold set_multibatch, bind, assign, read_self, floordiv, raise. simpl.
  rewrite Hbs. reflexivity.
Qed.

Lemma clear_run self :
  clear self =
  (Returns tt,
   {| df := None; batch_size := batch_size self;
      min_batch := -1; max_batch := -1 |}).
Proof. reflexivity. Qed.

(** What [get_batch_df] does on either side of the membership test. *)
Lemma get_batch_df_absent self i :
  contains self i = false ->
  get_batch_df i self = (Raises IndexError, self).
Proof.
  intros Hc. unfold get_batch_df.
  rewrite (bind_returns _ _ _ _ _ (contains_run self i)), Hc.
  reflexivity.
Qed.

Lemma get_batch_df_present self i d :
  df self = Some d -> contains self i = true ->
  get_batch_df i self =
  (Returns (loc d (i - min_batch self)
                (Z.min (i - min_batch self + batch_size self) (len d))),
   self).
Proof.
  intros Hd Hc. unfold get_batch_df.
  rewrite (bind_returns _ _ _ _ _ (contains_run self i)), Hc. simpl.
  unfold bind, read_self, ret. rewrite Hd. reflexivity.
Qed.

(** When [row_start + batch_size] reaches the end of the table the slice is
    clipped there, and both readings of [row_stop] give the same rows. *)
Lemma get_batch_df_at_table_end self i d :
  df self = Some d -> contains self i = true ->
  len d <= i - min_batch self + batch_size self ->
  result_of (get_batch_df i self)
  = Returns (rows_between d (i - min_batch self) (len d)).
Proof.
  intros Hd Hc Hend.
  destruct (proj1 (contains_true_iff self i) Hc) as (d' & _ & _ & _ & Hlo & _).
  rewrite (get_batch_df_present self i d Hd Hc). unfold result_of. simpl.
  rewrite Z.min_r by lia. f_equal.
  unfold loc, rows_between, len.
  rewrite Z.max_r by lia.
  rewrite !firstn_all2; trivial; rewrite length_skipn; lia.
Qed.

End MultiBatchBufferFacts.

Section MultiBatchBufferClaims.

Context {Row : Type}.
Implicit Types (self : MultiBatchBuffer Row) (d : DataFrame Row).
Implicit Types (i mb : Z).

(** C4: for every table and every [min_batch], [set_multibatch] on a buffer
    whose configured [batch_size] is positive returns normally and replaces
    the whole window: the table and [min_batch] are the arguments,
    [batch_size] is kept, and
    [max_batch = min_batch + floor (len (df) / batch_size)]. *)
Theorem set_multibatch_replaces_window d mb self :
  0 < batch_size self ->
  set_multibatch d mb self =
  (Returns tt,
   {| df := Some d; batch_size := batch_size self; min_batch := mb;
      max_batch := mb + len d / batch_size self |}).
Proof. intros Hbs. apply set_multibatch_run. lia. Qed.

(** C6: [__contains__] returns without touching [self]; its answer is
    [False] exactly when the table is absent, or has zero rows, or the index
    is negative, or the index lies outside [[min_batch, max_batch]], and
    [True] otherwise.  On a fresh buffer and on a cleared one it is [False]
    for every index. *)
Theorem contains_characterisation self i :
  __contains__ i self = (Returns (contains self i), self)
  /\ (contains self i = false <->
      df self = None \/ (exists d, df self = Some d /\ len d = 0)
      \/ i < 0 \/ i < min_batch self \/ max_batch self < i)
  /\ (contains self i = true <->
      exists d, df self = Some d /\ len d <> 0 /\ 0 <= i
                /\ min_batch self <= i <= max_batch self)
  /\ (forall bs, contains (new_buffer (Row:=Row) bs) i = false)
  /\ contains (self_after (clear self)) i = false.
Proof.
  split; [apply contains_run|].
  split; [apply contains_false_iff|].
  split; [apply contains_true_iff|].
  split.
  - intros bs. apply contains_false_iff. now left.
  - apply contains_false_iff. left. rewrite clear_run. reflexivity.
Qed.

(** C7: [get_batch_df] raises the out-of-range error, [IndexError], if and
    only if [batch_index in self] is false, and the buffer is left exactly
    as it was (whether it raises or returns). *)
Theorem get_batch_df_raises_iff_absent self i :
  (result_of (get_batch_df i self) = Raises IndexError <->
   contains self i = false)
  /\ self_after (get_batch_df i self) = self.
Proof.
  destruct (contains self i) eqn:Hc.
  - destruct (proj1 (contains_true_iff self i) Hc) as (d & Hd & _).
    rewrite (get_batch_df_present self i d Hd Hc). simpl.
    repeat split; intros; discriminate.
  - rewrite (get_batch_df_absent self i Hc). simpl.
    repeat split; intros; reflexivity.
Qed.

(** C8, as the code has it: [set_multibatch] takes no [batch_size] and
    checks nothing about the configured one.  With a negative [batch_size]
    the call returns normally, having stored the table and [min_batch] and
    set [max_batch = min_batch + floor (len (df) / batch_size)]; only
    [batch_size = 0] makes it fail, with the [ZeroDivisionError] of [//]. *)
Theorem set_multibatch_nonpositive_batch_size d mb self :
  batch_size self <= 0 ->
  (batch_size self < 0 ->
   set_multibatch d mb self =
   (Returns tt,
    {| df := Some d; batch_size := batch_size self; min_batch := mb;
       max_batch := mb + len d / batch_size self |}))
  /\ (batch_size self = 0 ->
      result_of (set_multibatch d mb self) = Raises ZeroDivisionError).
Proof.
  intros _. split.
  - intros Hneg. apply set_multibatch_run. lia.
  - apply set_multibatch_zero.
Qed.

(** C10: with a positive configured [batch_size], [set_multibatch] of a
    table without rows returns normally and leaves
    [max_batch = min_batch], the argument (not the -1 of an empty buffer);
    all the same no index is in the buffer, and [get_batch_df] raises
    [IndexError] for every index. *)
Theorem set_multibatch_empty_table mb self :
  0 < batch_size self ->
  let self' := self_after (set_multibatch [] mb self) in
  result_of (set_multibatch [] mb self) = Returns tt
  /\ min_batch self' = mb
  /\ max_batch self' = mb
  /\ (forall i, contains self' i = false)
  /\ (forall i, result_of (get_batch_df i self') = Raises IndexError).
Proof.
  intros Hbs self'. subst self'.
  rewrite set_multibatch_run by lia.
  cbv [self_after result_of fst snd].
  set (filled := {| df := Some (@nil Row); batch_size := batch_size self;
                    min_batch := mb;
                    max_batch := mb + len (@nil Row) / batch_size self |}).
  assert (Hno : forall i, contains filled i = false).
  { intros i. apply contains_false_iff. right; left. now exists []. }
  split; [reflexivity|].
  split; [reflexivity|].
  split; [subst filled; simpl; rewrite (@len_nil Row), Z.div_0_l; lia|].
  split; [exact Hno|].
  intros i. change (result_of (get_batch_df i filled) = Raises IndexError).
  now rewrite (get_batch_df_absent filled i (Hno i)).
Qed.

(** C5, where the code departs from it: on a populated buffer with a
    positive [batch_size], for an index in the buffer whose
    [row_start + batch_size] falls short of the table length,
    [get_batch_df] returns the rows [row_start] to [row_stop] with the row
    at [row_stop] INCLUDED -- [batch_size + 1] rows, one more than the
    half-open range [[row_start, row_stop)] -- because [.loc] slices by
    label with both ends included. *)
Theorem get_batch_df_includes_row_stop self i d :
  df self = Some d ->
  contains self i = true ->
  0 < batch_size self ->
  i - min_batch self + batch_size self < len d ->
  let row_start := i - min_batch self in
  let row_stop := Z.min (row_start + batch_size self) (len d) in
  result_of (get_batch_df i self) =
  Returns (rows_between d row_start (row_stop + 1))
  /\ len (rows_between d row_start (row_stop + 1)) = batch_size self + 1
  /\ len (rows_between d row_start row_stop) = batch_size self
  /\ result_of (get_batch_df i self)
     <> Returns (rows_between d row_start row_stop).
Proof.
  intros Hd Hc Hbs Hshort row_start row_stop.
  destruct (proj1 (contains_true_iff self i) Hc) as (d' & Hd' & _ & _ & Hlo & _).
  rewrite (get_batch_df_present self i d Hd Hc). simpl.
  fold row_start. fold row_stop.
  rewrite loc_rows_between.
  assert (Hstop : row_stop = row_start + batch_size self)
    by (subst row_stop row_start; lia).
  assert (Hmore : len (rows_between d row_start (row_stop + 1))
                  = batch_size self + 1)
    by (rewrite length_rows_between; subst row_start; lia).
  assert (Hclaim : len (rows_between d row_start row_stop) = batch_size self)
    by (rewrite length_rows_between; subst row_start; lia).
  split; [reflexivity|].
  split; [exact Hmore|].
  split; [exact Hclaim|].
  intros Heq. inversion Heq as [Hrows].
  rewrite Hrows in Hmore. lia.
Qed.

End MultiBatchBufferClaims.

(** The 20-row scenario evaluated: [max_batch] is 5, the indices 3, 4 and 5
    are in the buffer and 2 is not, and [get_batch_df(4)] returns the rows
    1 to 11, which are not the rows [[10, 20)]. *)
Lemma buffer_20_3_10_evaluated :
  max_batch buffer_20_3_10 = 5
  /\ contains buffer_20_3_10 3 = true
  /\ contains buffer_20_3_10 4 = true
  /\ contains buffer_20_3_10 2 = false
  /\ contains buffer_20_3_10 5 = true
  /\ result_of (get_batch_df 4 buffer_20_3_10)
     = Returns [1; 2; 3; 4; 5; 6; 7; 8; 9; 10; 11]
  /\ rows_between (range_table 20) 10 20
     = [10; 11; 12; 13; 14; 15; 16; 17; 18; 19]
  /\ result_of (get_batch_df 4 buffer_20_3_10)
     <> Returns (rows_between (range_table 20) 10 20).
Proof.
  repeat (split; [vm_compute; reflexivity|]).
  vm_compute. discriminate.
Qed.

(** C3 does not hold of the code: after [set_multibatch] with a 20-row
    table, [min_batch = 3] and [batch_size = 10], [max_batch] is not 4,
    [5 in buffer] is not [False], and [get_batch_df(4)] does not return the
    rows [[10, 20)] of the table. *)
Lemma buffer_20_3_10_refutes_example :
  max_batch buffer_20_3_10 <> 4
  /\ contains buffer_20_3_10 5 <> false
  /\ result_of (get_batch_df 4 buffer_20_3_10)
     <> Returns (rows_between (range_table 20) 10 20).
Proof. repeat split; vm_compute; discriminate. Qed.

(** C3, as the code has it by its formulas: after [set_multibatch] with a
    20-row table, [min_batch = 3] and [batch_size = 10], [max_batch] is
    [3 + 20 // 10 = 5]; 3, 4 and 5 are in the buffer, 2 and 6 are not; and
    [get_batch_df(4)] returns, leaving the buffer as it was, a slice of the
    table that begins at row [row_start = 4 - 3 = 1]: its first 10 rows are
    the rows [[1, 11)]. *)
Theorem buffer_20_3_10_by_the_formulas :
  max_batch buffer_20_3_10 = 3 + 20 / 10
  /\ max_batch buffer_20_3_10 = 5
  /\ contains buffer_20_3_10 3 = true
  /\ contains buffer_20_3_10 4 = true
  /\ contains buffer_20_3_10 5 = true
  /\ contains buffer_20_3_10 2 = false
  /\ contains buffer_20_3_10 6 = false
  /\ exists batch,
      get_batch_df 4 buffer_20_3_10 = (Returns batch, buffer_20_3_10)
      /\ firstn 10 batch = rows_between (range_table 20) 1 11.
Proof.
  repeat (split; [vm_compute; reflexivity|]).
  eexists. split; vm_compute; reflexivity.
Qed.

Lemma set_multibatch_replaces_window_witness :
  0 < batch_size (new_buffer (Row:=Z) 10)
  /\ set_multibatch (range_table 20) 3 (new_buffer 10) =
     (Returns tt,
      {| df := Some (range_table 20); batch_size := 10; min_batch := 3;
         max_batch := 3 + 20 / 10 |}).
Proof.
  split; [reflexivity|].
  apply (set_multibatch_replaces_window (range_table 20) 3 (new_buffer 10)).
  reflexivity.
Defined.

(** C8 does not hold of the code: a buffer configured with
    [batch_size = -3] accepts [set_multibatch] without any error. *)
Lemma set_multibatch_negative_batch_size_accepted :
  batch_size (new_buffer (Row:=Z) (-3)) <= 0
  /\ raised (result_of (set_multibatch (range_table 20) 3 (new_buffer (-3))))
     = false
  /\ set_multibatch (range_table 20) 3 (new_buffer (-3)) =
     (Returns tt,
      {| df := Some (range_table 20); batch_size := -3; min_batch := 3;
         max_batch := -4 |}).
Proof.
  split; [vm_compute; discriminate|].
  split; vm_compute; reflexivity.
Qed.

Lemma set_multibatch_nonpositive_batch_size_witness :
  batch_size (new_buffer (Row:=Z) (-3)) <= 0
  /\ set_multibatch (range_table 20) 3 (new_buffer (-3)) =
     (Returns tt,
      {| df := Some (range_table 20); batch_size := -3; min_batch := 3;
         max_batch := 3 + 20 / -3 |}).
Proof.
  assert (H : batch_size (new_buffer (Row:=Z) (-3)) <= 0) by (simpl; lia).
  split; [exact H|].
  apply (set_multibatch_nonpositive_batch_size
           (range_table 20) 3 (new_buffer (-3)) H).
  reflexivity.
Defined.

Lemma set_multibatch_empty_table_witness :
  0 < batch_size (new_buffer (Row:=Z) 10)
  /\ max_batch (self_after (set_multibatch [] 7 (new_buffer (Row:=Z) 10))) = 7
  /\ contains (self_after (set_multibatch [] 7 (new_buffer (Row:=Z) 10))) 7
     = false.
Proof.
  assert (H : 0 < batch_size (new_buffer (Row:=Z) 10)) by reflexivity.
  split; [exact H|].
  destruct (set_multibatch_empty_table 7 (new_buffer (Row:=Z) 10) H)
    as (_ & _ & Hmax & Hno & _).
  split; [exact Hmax|apply Hno].
Defined.

Lemma get_batch_df_includes_row_stop_witness :
  result_of (get_batch_df 4 buffer_20_3_10)
  = Returns (rows_between (range_table 20) 1 12)
  /\ len (rows_between (range_table 20) 1 12) = 11
  /\ len (rows_between (range_table 20) 1 11) = 10
  /\ result_of (get_batch_df 4 buffer_20_3_10)
     <> Returns (rows_between (range_table 20) 1 11).
Proof.
  apply (get_batch_df_includes_row_stop buffer_20_3_10 4 (range_table 20));
    reflexivity.
Defined.

(** ** Part II: the sequential reader *)

Section ReaderFacts.

Local Open Scope nat_scope.

Context {Row : Type}.
Implicit Types (f : BackingFile Row) (rest pre fs : list (BackingFile Row)).
Implicit Types (self : MultiFileCursor Row) (fi off n m : nat).

Lemma all_rows_app pre rest :
  all_rows (pre ++ rest) = all_rows pre ++ all_rows rest.
Proof. apply concat_app. Qed.

Lemma total_rows_app pre rest :
  total_rows (pre ++ rest) = total_rows pre + total_rows rest.
Proof. unfold total_rows. now rewrite all_rows_app, length_app. Qed.

Lemma total_rows_cons f rest :
  total_rows (f :: rest) = row_count f + total_rows rest.
Proof. unfold total_rows, all_rows, row_count. simpl. apply length_app. Qed.

Lemma head_within_total rest off :
  off <= row_count (hd [] rest) -> off <= total_rows rest.
Proof.
  destruct rest as [|f rest]; simpl; [trivial|].
  rewrite total_rows_cons. lia.
Qed.

(** The rows from offset [off] of the first file on, across the files. *)
Lemma skipn_all_rows_cons f rest off :
  off <= row_count f ->
  skipn off (all_rows (f :: rest)) = skipn off f ++ all_rows rest.
Proof.
  unfold all_rows, row_count. simpl. intros Hoff.
  rewrite skipn_app.
  replace (off - List.length f) with 0 by lia. reflexivity.
Qed.

Lemma lands_here pre rest off :
  off <= row_count (hd [] rest) ->
  lands pre rest (mkCursor (List.length pre) off) (total_rows pre + off).
Proof.
  intros Hoff. unfold lands. simpl.
  rewrite length_app. split; [lia|]. split.
  - rewrite app_nth2 by lia. rewrite Nat.sub_diag.
    destruct rest; exact Hoff.
  - rewrite firstn_app, Nat.sub_diag, firstn_all. simpl.
    now rewrite app_nil_r.
Qed.

Lemma lands_shift pre f rest c consumed :
  lands (pre ++ [f]) rest c consumed -> lands pre (f :: rest) c consumed.
Proof. unfold lands. now rewrite <- app_assoc. Qed.

(** One round of the loop on a request that is not yet served. *)
Lemma pull_rows_round f rest fi off n :
  0 < n ->
  pull_rows (f :: rest) fi off n =
  let k := Nat.min n (row_count f - off) in
  if Nat.eqb (off + k) (row_count f)
  then match pull_rows rest (S fi) 0 (n - k) with
       | Some (more, c) => Some (read_range f off (off + k) ++ more, c)
       | None => None
       end
  else Some (read_range f off (off + k), mkCursor fi (off + k)).
Proof. destruct n; [lia|reflexivity]. Qed.

(** The loop collects the next [n] rows whenever that many remain. *)
Lemma pull_rows_enough rest :
  forall pre off n,
    off <= row_count (hd [] rest) ->
    n + off <= total_rows rest ->
    exists c,
      pull_rows rest (List.length pre) off n
      = Some (firstn n (skipn off (all_rows rest)), c)
      /\ lands pre rest c (total_rows pre + off + n).
Proof.
  induction rest as [|f rest IH]; intros pre off n Hoff Hn.
  - simpl in Hoff. assert (n = 0) by (unfold total_rows in Hn; simpl in Hn; lia).
    subst n. replace off with 0 by lia. simpl.
    exists (mkCursor (List.length pre) 0). split; [reflexivity|].
    rewrite Nat.add_0_r. apply lands_here. simpl. lia.
  - simpl in Hoff. destruct n as [|n'].
    + simpl. exists (mkCursor (List.length pre) off). split; [reflexivity|].
      rewrite Nat.add_0_r. apply lands_here. exact Hoff.
    + remember (S n') as n eqn:En.
      rewrite total_rows_cons in Hn.
      rewrite skipn_all_rows_cons by exact Hoff.
      assert (Hlen : List.length (skipn off f) = row_count f - off)
        by (unfold row_count; apply length_skipn).
      rewrite pull_rows_round by lia. cbv zeta.
      set (k := Nat.min n (row_count f - off)).
      assert (Hkn : k <= n) by apply Nat.le_min_l.
      unfold read_range. replace (off + k - off) with k by lia.
      destruct (Nat.eqb_spec (off + k) (row_count f)) as [Hend|Hmid].
      * assert (Hk : k = row_count f - off) by lia.
        destruct (IH (pre ++ [f]) 0 (n - k)) as (c & Hpull & Hc);
          [lia|lia|].
        rewrite length_app in Hpull. simpl in Hpull.
        rewrite Nat.add_1_r in Hpull. rewrite Hpull.
        exists c. split.
        -- f_equal. f_equal.
           rewrite firstn_app, Hlen, <- Hk.
           rewrite (firstn_all2 (n:=k)) by lia.
           rewrite (firstn_all2 (n:=n)) by lia. reflexivity.
        -- apply lands_shift.
           rewrite total_rows_app, total_rows_cons in Hc.
           unfold total_rows at 2 in Hc. simpl in Hc.
           replace (total_rows pre + off + n)
             with (total_rows pre + (row_count f + 0) + 0 + (n - k)) by lia.
           exact Hc.
      * assert (Hk : k = n) by lia.
        exists (mkCursor (List.length pre) (off + k)). split.
        -- f_equal. f_equal. rewrite Hk.
           rewrite firstn_app, Hlen.
           replace (n - (row_count f - off)) with 0 by lia.
           simpl. now rewrite app_nil_r.
        -- replace (total_rows pre + off + n)
             with (total_rows pre + (off + k)) by lia.
           apply lands_here. simpl. lia.
Qed.

(** The loop runs out of files whenever fewer than [n] rows remain. *)
Lemma pull_rows_short rest :
  forall fi off n,
    off <= row_count (hd [] rest) ->
    total_rows rest < n + off ->
    pull_rows rest fi off n = None.
Proof.
  induction rest as [|f rest IH]; intros fi off n Hoff Hn.
  - simpl in Hoff. destruct n; [unfold total_rows in Hn; simpl in Hn; lia|].
    reflexivity.
  - simpl in Hoff. rewrite total_rows_cons in Hn.
    destruct n as [|n']; [lia|].
    remember (S n') as n eqn:En.
    rewrite pull_rows_round by lia. cbv zeta.
    set (k := Nat.min n (row_count f - off)).
    destruct (Nat.eqb_spec (off + k) (row_count f)) as [Hend|Hmid]; [|lia].
    rewrite (IH (S fi) 0 (n - k)); [reflexivity|simpl; lia|lia].
Qed.

Lemma hd_skipn fs fi : hd [] (skipn fi fs) = nth fi fs [].
Proof.
  revert fs. induction fi as [|fi IH]; intros [|f fs]; simpl; trivial.
Qed.

Lemma firstn_plus {A : Type} (a b : nat) (l : list A) :
  firstn (a + b) l = firstn a l ++ firstn b (skipn a l).
Proof.
  revert l. induction a as [|a IH]; intros [|x l]; simpl; trivial.
  - now rewrite firstn_nil.
  - now rewrite IH.
Qed.

(** The file list seen from a position: the files left behind and the files
    from the current one on. *)
Lemma cursor_ok_split self :
  cursor_ok self ->
  let fi := file_index (position self) in
  let off := intra_file_row_offset (position self) in
  let pre := firstn fi (files self) in
  let rest := skipn fi (files self) in
  List.length pre = fi
  /\ off <= row_count (hd [] rest)
  /\ rows_consumed self = total_rows pre + off
  /\ total_rows (files self) = total_rows pre + total_rows rest
  /\ skipn (rows_consumed self) (all_rows (files self))
     = skipn off (all_rows rest).
Proof.
  intros [Hfi Hoff] fi off pre rest.
  assert (Hlen : List.length pre = fi)
    by (subst pre; rewrite length_firstn; fold fi; lia).
  split; [exact Hlen|].
  split; [subst rest; rewrite hd_skipn; exact Hoff|].
  split; [reflexivity|].
  split.
  - rewrite <- total_rows_app. subst pre rest. now rewrite firstn_skipn.
  - assert (Hf : all_rows (files self) = all_rows pre ++ all_rows rest).
    { rewrite <- all_rows_app. subst pre rest. now rewrite firstn_skipn. }
    unfold rows_consumed. fold fi off pre.
    rewrite Hf, skipn_app.
    unfold total_rows.
    rewrite skipn_all2 by lia.
    replace (List.length (all_rows pre) + off - List.length (all_rows pre))
      with off by lia.
    reflexivity.
Qed.

Lemma rows_remaining_split self :
  cursor_ok self ->
  rows_remaining self
  = total_rows (skipn (file_index (position self)) (files self))
    - intra_file_row_offset (position self).
Proof.
  intros Hok. destruct (cursor_ok_split self Hok) as (_ & _ & Hc & Ht & _).
  unfold rows_remaining. rewrite Hc, Ht. lia.
Qed.

Lemma open_files_ok fs : cursor_ok (open_files fs).
Proof. unfold cursor_ok. simpl. lia. Qed.

Lemma open_files_remaining fs :
  rows_remaining (open_files fs) = total_rows fs.
Proof. unfold rows_remaining, rows_consumed, total_rows. simpl. lia. Qed.

(** A request that the remaining rows can serve: [read_rows] returns the
    next [n] rows of the stream and moves the position [n] rows on. *)
Lemma read_rows_enough self n :
  cursor_ok self ->
  n <= rows_remaining self ->
  exists self',
    read_rows n self
    = (Returns (firstn n (skipn (rows_consumed self) (all_rows (files self)))),
       self')
    /\ files self' = files self
    /\ cursor_ok self'
    /\ rows_consumed self' = rows_consumed self + n.
Proof.
  intros Hok Hn.
  rewrite (rows_remaining_split self Hok) in Hn.
  destruct (cursor_ok_split self Hok) as (Hlen & Hoff & Hc & _ & Hskip).
  cbv zeta in Hlen, Hoff, Hc, Hskip.
  set (fi := file_index (position self)) in *.
  set (off := intra_file_row_offset (position self)) in *.
  pose proof (head_within_total _ _ Hoff) as Hin.
  destruct (pull_rows_enough (skipn fi (files self))
              (firstn fi (files self)) off n Hoff) as (c & Hpull & Hland);
    [lia|].
  rewrite Hlen in Hpull.
  unfold lands in Hland. rewrite firstn_skipn in Hland.
  destruct Hland as (H1 & H2 & H3).
  exists (set_position c self).
  unfold read_rows, bind, read_self, assign, ret. simpl.
  fold fi off. rewrite Hpull, Hskip.
  split; [reflexivity|].
  split; [reflexivity|].
  split; [split; assumption|].
  unfold rows_consumed at 1. simpl. rewrite H3, Hc. reflexivity.
Qed.

(** A request beyond the remaining rows: [EOFError], nothing consumed. *)
Lemma read_rows_short self n :
  cursor_ok self ->
  rows_remaining self < n ->
  read_rows n self = (Raises EOFError, self).
Proof.
  intros Hok Hn.
  rewrite (rows_remaining_split self Hok) in Hn.
  destruct (cursor_ok_split self Hok) as (_ & Hoff & _).
  cbv zeta in Hoff.
  pose proof (head_within_total _ _ Hoff) as Hin.
  unfold read_rows, bind, read_self, raise. simpl.
  rewrite pull_rows_short; [reflexivity|exact Hoff|lia].
Qed.

Lemma rows_consumed_within self :
  cursor_ok self -> rows_consumed self <= total_rows (files self).
Proof.
  intros Hok.
  destruct (cursor_ok_split self Hok) as (_ & Hoff & Hc & Ht & _).
  cbv zeta in Hoff, Hc, Ht.
  pose proof (head_within_total _ _ Hoff). lia.
Qed.

Lemma length_next_rows self n :
  cursor_ok self ->
  n <= rows_remaining self ->
  List.length (firstn n (skipn (rows_consumed self) (all_rows (files self))))
  = n.
Proof.
  intros Hok Hn. rewrite length_firstn, length_skipn.
  unfold rows_remaining, total_rows in Hn. lia.
Qed.

End ReaderFacts.

Section DatasetReaderFacts.

Local Open Scope nat_scope.

Context {Value : Type}.
Implicit Types (r : BatchedDatasetReader Value).
Implicit Types (table : list (Event Value)) (n m : nat).

Lemma set_cursor_same r : set_cursor (cursor r) r = r.
Proof. destruct r; reflexivity. Qed.

Lemma read_events_returns r n table c :
  read_rows n (cursor r) = (Returns table, c) ->
  read_events n r
  = (Returns (features_of r table, labels_of r table), set_cursor c r).
Proof.
  intros Hread.
  unfold read_events, bind, on_cursor, read_self, ret.
  rewrite Hread. reflexivity.
Qed.

Lemma read_events_raises r n e c :
  read_rows n (cursor r) = (Raises e, c) ->
  read_events n r = (Raises e, set_cursor c r).
Proof.
  intros Hread.
  unfold read_events, bind, on_cursor.
  rewrite Hread. reflexivity.
Qed.

Lemma features_shape r table :
  has_shape (features_of r table)
            (List.length table) (List.length (feature_columns r)).
Proof.
  unfold has_shape, features_of. split; [apply length_map|].
  apply Forall_map, Forall_forall. intros ev _. apply length_map.
Qed.

Lemma labels_shape r table :
  has_shape (labels_of r table) (List.length table) 1.
Proof.
  unfold has_shape, labels_of. split; [apply length_map|].
  apply Forall_map, Forall_forall. intros ev _. reflexivity.
Qed.

(** [read_events] on a request that the remaining rows can serve. *)
Lemma read_events_enough r n :
  cursor_ok (cursor r) ->
  n <= rows_remaining (cursor r) ->
  exists X y r',
    read_events n r = (Returns (X, y), r')
    /\ has_shape X n (List.length (feature_columns r))
    /\ has_shape y n 1
    /\ feature_columns r' = feature_columns r
    /\ label_column r' = label_column r
    /\ files (cursor r') = files (cursor r)
    /\ cursor_ok (cursor r')
    /\ rows_consumed (cursor r') = rows_consumed (cursor r) + n.
Proof.
  intros Hok Hn.
  destruct (read_rows_enough (cursor r) n Hok Hn)
    as (c & Hread & Hfiles & Hok' & Hpos).
  pose proof (length_next_rows (cursor r) n Hok Hn) as Hlen.
  set (table := firstn n (skipn (rows_consumed (cursor r))
                                (all_rows (files (cursor r))))) in *.
  exists (features_of r table), (labels_of r table), (set_cursor c r).
  split; [exact (read_events_returns r n table c Hread)|].
  split; [rewrite <- Hlen at 1; apply features_shape|].
  split; [rewrite <- Hlen at 1; apply labels_shape|].
  simpl. repeat split; trivial; apply Hok'.
Qed.

End DatasetReaderFacts.

Section ReaderClaims.

Local Open Scope nat_scope.

Context {Value : Type}.
Implicit Types (r : BatchedDatasetReader Value).
Implicit Types (self : MultiFileCursor (Event Value)) (n m : nat).

(** C1: when [n] exceeds the rows remaining across all unread files, both
    [read_rows] and [read_events] fail with the end-of-data error
    ([EOFError]) and leave the object -- so the position
    (file_index, intra_file_row_offset) -- exactly as it was before the
    call, however many file boundaries the attempt walked over; a read
    issued after the failure for any count up to the untouched remainder
    succeeds and returns that many rows. *)
Theorem read_beyond_remaining_is_all_or_nothing r n :
  cursor_ok (cursor r) ->
  rows_remaining (cursor r) < n ->
  read_rows n (cursor r) = (Raises EOFError, cursor r)
  /\ read_events n r = (Raises EOFError, r)
  /\ position (cursor (self_after (read_events n r))) = position (cursor r)
  /\ forall m,
      m <= rows_remaining (cursor r) ->
      exists X y r',
        read_events m (self_after (read_events n r)) = (Returns (X, y), r')
        /\ has_shape X m (List.length (feature_columns r))
        /\ has_shape y m 1.
Proof.
  intros Hok Hn.
  pose proof (read_rows_short (cursor r) n Hok Hn) as Hrows.
  assert (Hev : read_events n r = (Raises EOFError, r)).
  { rewrite (read_events_raises r n _ _ Hrows). now rewrite set_cursor_same. }
  rewrite Hev. unfold self_after. simpl.
  split; [exact Hrows|].
  split; [reflexivity|].
  split; [reflexivity|].
  intros m Hm.
  destruct (read_events_enough r m Hok Hm) as (X & y & r' & Hread & HX & Hy & _).
  now exists X, y, r'.
Qed.

(** C2: on a reader that has not read yet, for every [n] with
    [1 <= n <= total rows across all files], [read_events n] succeeds, the
    features have shape (n, number of feature columns), the labels have
    shape (n, 1), and the logical read position has advanced by exactly
    [n] rows. *)
Theorem read_events_within_total r n :
  position (cursor r) = mkCursor 0 0 ->
  1 <= n <= total_rows (files (cursor r)) ->
  exists X y r',
    read_events n r = (Returns (X, y), r')
    /\ has_shape X n (List.length (feature_columns r))
    /\ has_shape y n 1
    /\ rows_consumed (cursor r) = 0
    /\ rows_consumed (cursor r') = n.
Proof.
  intros Hfresh Hn.
  assert (Hopen : cursor r = open_files (files (cursor r))).
  { destruct (cursor r) as [fs c]. simpl in *. now subst c. }
  assert (Hok : cursor_ok (cursor r))
    by (rewrite Hopen; apply open_files_ok).
  assert (Hrem : rows_remaining (cursor r) = total_rows (files (cursor r))).
  { rewrite Hopen at 1. apply open_files_remaining. }
  assert (Hzero : rows_consumed (cursor r) = 0).
  { unfold rows_consumed. rewrite Hfresh. reflexivity. }
  destruct (read_events_enough r n Hok) as
    (X & y & r' & Hread & HX & Hy & _ & _ & _ & _ & Hpos); [lia|].
  exists X, y, r'. rewrite Hpos, Hzero. repeat split; trivial; apply HX || apply Hy.
Qed.

(** C9: the tables returned by any run of successful reads, put end to
    end, are the rows of the files in file-list order and on-file order,
    from the row the position stood at, one after the other -- nothing
    twice, nothing left out -- and the position has moved on by their
    number.  And a single read that reaches over the end of a file returns
    the tail of that file followed at once by the head of the next. *)
Theorem reads_return_the_stream_in_order self :
  cursor_ok self ->
  (forall ns tables self',
      read_all ns self = (Returns tables, self') ->
      concat tables
      = firstn (list_sum ns)
               (skipn (rows_consumed self) (all_rows (files self)))
      /\ List.length (concat tables) = list_sum ns
      /\ rows_consumed self' = rows_consumed self + list_sum ns)
  /\ (forall pre f g post n,
         files self = pre ++ f :: g :: post ->
         file_index (position self) = List.length pre ->
         let left := row_count f - intra_file_row_offset (position self) in
         left < n <= left + row_count g ->
         result_of (read_rows n self)
         = Returns (skipn (intra_file_row_offset (position self)) f
                    ++ firstn (n - left) g)).
Proof.
  intros Hok. split.
  - intros ns. revert self Hok.
    induction ns as [|n ns IH]; intros self Hok tables self' Hrun.
    + simpl in Hrun. unfold ret in Hrun. inversion Hrun; subst.
      simpl. rewrite Nat.add_0_r. repeat split; reflexivity.
    + simpl in Hrun.
      destruct (Nat.le_gt_cases n (rows_remaining self)) as [Hn|Hn].
      * destruct (read_rows_enough self n Hok Hn)
          as (self1 & Hread & Hfiles & Hok1 & Hpos1).
        pose proof (length_next_rows self n Hok Hn) as Hlen.
        rewrite (bind_returns _ _ _ _ _ Hread) in Hrun.
        destruct (read_all ns self1) as [[ts|e] self2] eqn:Hrest.
        -- rewrite (bind_returns _ _ _ _ _ Hrest) in Hrun.
           unfold ret in Hrun. inversion Hrun; subst tables self'.
           destruct (IH self1 Hok1 ts self2 Hrest) as (Hcat & Hl & Hpos2).
           simpl. split; [|split].
           ++ rewrite Hcat, Hpos1, Hfiles.
              rewrite firstn_plus, skipn_skipn.
              now rewrite (Nat.add_comm n (rows_consumed self)).
           ++ now rewrite length_app, Hlen, Hl.
           ++ lia.
        -- rewrite (bind_raises _ _ _ _ _ Hrest) in Hrun. discriminate.
      * rewrite (bind_raises _ _ _ _ _ (read_rows_short self n Hok Hn)) in Hrun.
        discriminate.
  - intros pre f g post n Hfiles Hfi left Hn.
    set (off := intra_file_row_offset (position self)) in *.
    assert (Hoff : off <= row_count f).
    { destruct Hok as [_ Hoff]. rewrite Hfi, Hfiles in Hoff.
      rewrite app_nth2, Nat.sub_diag in Hoff by lia. exact Hoff. }
    assert (Hcons : rows_consumed self = total_rows pre + off).
    { unfold rows_consumed. rewrite Hfi, Hfiles.
      rewrite firstn_app, Nat.sub_diag, firstn_all. simpl.
      now rewrite app_nil_r. }
    assert (Htot : total_rows (files self)
                   = total_rows pre + (row_count f
                                       + (row_count g + total_rows post))).
    { rewrite Hfiles, total_rows_app, !total_rows_cons. reflexivity. }
    destruct (read_rows_enough self n Hok) as (self1 & Hread & _).
    { unfold rows_remaining. rewrite Hcons, Htot. subst left. lia. }
    rewrite Hread. unfold result_of. simpl. f_equal.
    rewrite Hcons, Hfiles, all_rows_app, skipn_app.
    unfold total_rows at 1 2.
    rewrite skipn_all2 by lia.
    replace (List.length (all_rows pre) + off - List.length (all_rows pre))
      with off by lia.
    rewrite app_nil_l.
    rewrite skipn_all_rows_cons by exact Hoff.
    assert (Hlen : List.length (skipn off f) = row_count f - off)
      by (unfold row_count; apply length_skipn).
    rewrite firstn_app, Hlen. fold left.
    rewrite (firstn_all2 (n:=n)) by (subst left; lia).
    f_equal.
    unfold all_rows. simpl. rewrite firstn_app.
    replace (n - left - List.length g) with 0
      by (unfold row_count in Hn; lia).
    simpl. now rewrite app_nil_r.
Qed.

End ReaderClaims.

(** ** The scenarios of [test_datagen.py] *)

Lemma test_reader_ok : cursor_ok (cursor test_reader).
Proof. apply open_files_ok. Qed.

(** [test_partial_reads_with_overflow]: 19 events, then the last one, then a
    read of 2 that fails and leaves the reader where it was. *)
Example partial_reads_with_overflow :
  exists X1 y1 r1 X2 y2 r2,
    read_events 19 test_reader = (Returns (X1, y1), r1)
    /\ has_shape X1 19 2 /\ has_shape y1 19 1
    /\ read_events 1 r1 = (Returns (X2, y2), r2)
    /\ has_shape X2 1 2 /\ has_shape y2 1 1
    /\ position (cursor r2) = mkCursor 2 0
    /\ read_events 2 r2 = (Raises EOFError, r2).
Proof.
  do 6 eexists.
  split; [vm_compute; reflexivity|].
  split; [split; [reflexivity|repeat constructor]|].
  split; [split; [reflexivity|repeat constructor]|].
  split; [vm_compute; reflexivity|].
  split; [split; [reflexivity|repeat constructor]|].
  split; [split; [reflexivity|repeat constructor]|].
  split; reflexivity.
Qed.

(** [test_full_read_with_overflow]: 21 events out of 20. *)
Example full_read_with_overflow :
  read_events 21 test_reader = (Raises EOFError, test_reader).
Proof. reflexivity. Qed.

Lemma read_beyond_remaining_is_all_or_nothing_witness :
  read_events 21 test_reader = (Raises EOFError, test_reader)
  /\ position (cursor (self_after (read_events 21 test_reader))) = mkCursor 0 0
  /\ exists X y r',
      read_events 20 (self_after (read_events 21 test_reader))
      = (Returns (X, y), r')
      /\ has_shape X 20 2 /\ has_shape y 20 1.
Proof.
  assert (Hok : cursor_ok (cursor test_reader))
    by (split; vm_compute; lia).
  assert (Hn : (rows_remaining (cursor test_reader) < 21)%nat)
    by (vm_compute; lia).
  destruct (read_beyond_remaining_is_all_or_nothing test_reader 21 Hok Hn)
    as (_ & Hev & Hpos & Hnext).
  split; [exact Hev|].
  split; [exact Hpos|].
  apply (Hnext 20%nat). vm_compute. lia.
Defined.

Lemma read_events_within_total_witness :
  exists X y r',
    read_events 19 test_reader = (Returns (X, y), r')
    /\ has_shape X 19 2 /\ has_shape y 19 1
    /\ rows_consumed (cursor test_reader) = 0%nat
    /\ rows_consumed (cursor r') = 19%nat.
Proof.
  apply (read_events_within_total test_reader 19).
  - reflexivity.
  - vm_compute. lia.
Defined.

Lemma reads_return_the_stream_in_order_witness :
  (exists tables self',
      read_all [3; 8]%nat cursor_at_9 = (Returns tables, self')
      /\ concat tables
         = firstn 11 (skipn 9 (all_rows [test_file 0; test_file 10]))
      /\ rows_consumed self' = 20%nat)
  /\ result_of (read_rows 11 cursor_at_9)
     = Returns (skipn 9 (test_file 0) ++ firstn 10 (test_file 10)).
Proof.
  assert (Hok : cursor_ok cursor_at_9) by (split; vm_compute; lia).
  destruct (reads_return_the_stream_in_order cursor_at_9 Hok)
    as [Hseq Hspan].
  split.
  - destruct (read_all [3; 8]%nat cursor_at_9) as [[tables|e] self'] eqn:Hrun.
    + exists tables, self'. split; [reflexivity|].
      destruct (Hseq [3; 8]%nat tables self' Hrun) as (Hcat & _ & Hpos).
      split; [exact Hcat|exact Hpos].
    + exfalso. vm_compute in Hrun. discriminate.
  - apply (Hspan [] (test_file 0) (test_file 10) [] 11%nat).
    + reflexivity.
    + reflexivity.
    + vm_compute. lia.
Defined.

(** ** Part III: [ModelDB] *)

Section ModelDBFacts.

Context {Value : Type}.
Implicit Types (self : ModelDB Value) (m feature : PyKey).

Lemma and_then_inr {S A B : Type} (c : checked S A) (k : A -> checked S B)
      (s s' : S) (a : A) :
  c s = (inr a, s') -> and_then c k s = k a s'.
Proof. intros Hc. unfold and_then. now rewrite Hc. Qed.

Lemma and_then_inl {S A B : Type} (c : checked S A) (k : A -> checked S B)
      (s s' : S) (e : dict_exn) :
  c s = (inl e, s') -> and_then c k s = (inl e, s').
Proof. intros Hc. unfold and_then. now rewrite Hc. Qed.

Lemma dict_has_true_iff {V : Type} (d : Dict V) (k : PyKey) :
  dict_has d k = true <-> exists v, dict_get d k = Some v.
Proof.
  unfold dict_has. destruct (dict_get d k) as [v|].
  - split; [intros _; now exists v|reflexivity].
  - split; [discriminate|intros [v Hv]; discriminate].
Qed.

Lemma with_model_same self : with_model (model self) self = self.
Proof. destruct self; reflexivity. Qed.

Lemma _check_model_is_valid_run self m :
  _check_model_is_valid m self
  = (if dict_has (data self) m || is_None m then inr tt
     else inl AssertionError, self).
Proof.
  unfold _check_model_is_valid, and_then, this, py_assert, give, fail.
  simpl. destruct (dict_has (data self) m || is_None m); reflexivity.
Qed.

(** [get] as one case analysis on the two lookups. *)
Lemma get_run self feature :
  get feature self
  = (match dict_get (data self) (model self) with
     | None => inl KeyError
     | Some features =>
         match dict_get features feature with
         | None => inl AssertionError
         | Some v => inr v
         end
     end, self).
Proof.
  unfold get, _check_feature_is_valid, and_then, this, subscript, py_assert,
    dict_has, give, fail.
  cbv beta iota.
  destruct (dict_get (data self) (model self)) as [features|] eqn:Hm;
    cbv beta iota; [|reflexivity].
  destruct (dict_get features feature) as [v|] eqn:Hf;
    cbv beta iota; [|reflexivity].
  rewrite Hm. cbv beta iota. rewrite Hf. reflexivity.
Qed.

(** [set_model] as one case analysis on the assertion. *)
Lemma set_model_run self m :
  set_model m self
  = if dict_has (data self) m || is_None m
    then (inr tt, with_model m self)
    else (inl AssertionError, self).
Proof.
  unfold set_model, and_then. rewrite _check_model_is_valid_run.
  destruct (dict_has (data self) m || is_None m); reflexivity.
Qed.

Lemma clear_model_run self :
  clear_model self = (inr tt, with_model None self).
Proof.
  unfold clear_model. rewrite set_model_run. simpl.
  now rewrite orb_true_r.
Qed.

(** X1: on a database whose [data] is a mapping, the outcome of
    [set_model] is decided by looking the model up in the mapping.  A model
    that is one of its keys is stored, and nothing else changes.  Of the
    models that are no key, [None] is stored all the same, and any other
    raises [AssertionError], the database keeping the model it had. *)
Theorem set_model_accepts_known_models self m :
  (forall features,
      dict_get (data self) m = Some features ->
      set_model m self = (inr tt, with_model m self))
  /\ (dict_get (data self) m = None ->
      (m = None -> set_model m self = (inr tt, with_model m self))
      /\ (m <> None -> set_model m self = (inl AssertionError, self))).
Proof.
  rewrite set_model_run. unfold dict_has. split.
  - intros features Hm. now rewrite Hm.
  - intros Hm. rewrite Hm. split.
    + intros ->. reflexivity.
    + intros Hsome. destruct m as [s|]; [reflexivity|contradiction].
Qed.

(** X2: on a database whose [data] is a mapping, [clear_model] succeeds
    whether or not [None] is among the keys of the mapping, and whatever
    model was selected; it leaves [None] selected and [data] as it was. *)
Theorem clear_model_always_succeeds self :
  (dict_get (data self) None = None ->
   clear_model self = (inr tt, with_model None self))
  /\ (forall features,
         dict_get (data self) None = Some features ->
         clear_model self = (inr tt, with_model None self))
  /\ model (with_model None self) = None
  /\ data (with_model None self) = data self.
Proof.
  split; [intros _; apply clear_model_run|].
  split; [intros features _; apply clear_model_run|].
  split; reflexivity.
Qed.


(** X4: selecting a model of the database and then reading one of its
    features returns the value stored under that model and feature, and
    leaves the model selected. *)
Theorem set_model_then_get self m feature features v :
  dict_get (data self) m = Some features ->
  dict_get features feature = Some v ->
  and_then (set_model m) (fun _ => get feature) self
  = (inr v, with_model m self).
Proof.
  intros Hm Hf.
  assert (Hset : set_model m self = (inr tt, with_model m self)).
  { rewrite set_model_run. unfold dict_has. now rewrite Hm. }
  rewrite (and_then_inr _ _ _ _ _ Hset).
  rewrite get_run. simpl. now rewrite Hm, Hf.
Qed.

(** X5: on a database whose mapping has no [None] key, [get] raises
    [KeyError] for every feature as long as no model is selected -- on a
    freshly built database, and again after [clear_model]: the subscript
    [self.data[self.model]] fails before the assertion is evaluated. *)
Theorem get_without_model_raises_KeyError self feature :
  dict_get (data self) None = None ->
  (model self = None -> fst (get feature self) = inl KeyError)
  /\ fst (and_then clear_model (fun _ => get feature) self) = inl KeyError.
Proof.
  intros Hnone. split.
  - intros Hm. rewrite get_run, Hm, Hnone. reflexivity.
  - rewrite (and_then_inr _ _ _ _ _ (clear_model_run self)).
    rewrite get_run. simpl. rewrite Hnone. reflexivity.
Qed.

End ModelDBFacts.

Lemma set_model_then_get_witness :
  and_then (set_model (Some "conv"%string))
           (fun _ => get (Some "epochs"%string)) example_db
  = (inr 20, with_model (Some "conv"%string) example_db).
Proof.
  apply (set_model_then_get example_db (Some "conv"%string)
           (Some "epochs"%string)
           [(Some "epochs"%string, 20); (Some "batch_size"%string, 16)] 20);
    reflexivity.
Defined.

Lemma get_without_model_raises_KeyError_witness :
  fst (get (Some "epochs"%string) example_db) = inl KeyError
  /\ fst (and_then clear_model (fun _ => get (Some "epochs"%string))
            (with_model (Some "conv"%string) example_db))
     = inl KeyError.
Proof.
  split.
  - apply (get_without_model_raises_KeyError example_db
             (Some "epochs"%string)); reflexivity.
  - apply (get_without_model_raises_KeyError
             (with_model (Some "conv"%string) example_db)
             (Some "epochs"%string)).
    reflexivity.
Defined.

(** ** Part I, continued: more on [MultiBatchBuffer] *)

Section MultiBatchBufferMore.

Context {Row : Type}.
Implicit Types (self : MultiBatchBuffer Row) (d : DataFrame Row).
Implicit Types (i mb : Z).

Lemma set_multibatch_zero_run d mb self :
  batch_size self = 0 ->
  set_multibatch d mb self
  = (Raises ZeroDivisionError,
     {| df := Some d; batch_size := batch_size self; min_batch := mb;
        max_batch := max_batch self |}).
Proof.
  intros Hbs.
  destruct self as [d0 bs lo hi]. simpl in Hbs. subst bs. reflexivity.
Qed.

(** X6: [set_multibatch] on a buffer whose [batch_size] is 0 is not
    all-or-nothing: when the division raises [ZeroDivisionError] the table
    and [min_batch] are already replaced, and [max_batch] is still the old
    one; from then on membership pairs the new table and the new lower bound
    with the old upper bound. *)
Theorem set_multibatch_zero_batch_size_half_done d mb self :
  batch_size self = 0 ->
  let self' := self_after (set_multibatch d mb self) in
  result_of (set_multibatch d mb self) = Raises ZeroDivisionError
  /\ df self' = Some d
  /\ min_batch self' = mb
  /\ max_batch self' = max_batch self
  /\ (forall i, contains self' i = true <->
                len d <> 0 /\ 0 <= i /\ mb <= i <= max_batch self).
Proof.
  intros Hbs self'. subst self'.
  rewrite (set_multibatch_zero_run d mb self Hbs).
  cbv [self_after result_of fst snd].
  repeat (split; [reflexivity|]).
  intros i. rewrite contains_true_iff. simpl. split.
  - intros (d' & Hd & Hne & Hi & Hrange). inversion Hd; subst d'. tauto.
  - intros (Hne & Hi & Hrange). exists d. tauto.
Qed.

(** Membership in a buffer that [set_multibatch] has just filled. *)
Lemma contains_after_set_multibatch d mb self i :
  0 < batch_size self ->
  contains (self_after (set_multibatch d mb self)) i = true <->
  len d <> 0 /\ 0 <= i /\ mb <= i <= mb + len d / batch_size self.
Proof.
  intros Hbs. rewrite set_multibatch_run by lia.
  cbv [self_after snd]. rewrite contains_true_iff. simpl. split.
  - intros (d' & Hd & Hne & Hi & Hrange). inversion Hd; subst d'. tauto.
  - intros (Hne & Hi & Hrange). exists d. tauto.
Qed.

(** X7: after a successful [set_multibatch(df, min_batch)] on a buffer with
    a positive [batch_size], the indices in the buffer are exactly the
    non-negative ones from [min_batch] to [min_batch + len(df) // batch_size],
    provided the table has rows. *)
Theorem indices_in_buffer_after_set_multibatch d mb self i :
  0 < batch_size self ->
  contains (self_after (set_multibatch d mb self)) i = true <->
  len d <> 0 /\ 0 <= i /\ mb <= i <= mb + len d / batch_size self.
Proof. apply contains_after_set_multibatch. Qed.

(** X8: for a cached table that carries the default [RangeIndex] (labels
    [0 .. len - 1], so that the label of a row is its position), the rows of
    a batch are rows of the table, in table order: row [k] of
    [get_batch_df(i)] is the row of the table at position
    [(i - min_batch) + k], for every [k] up to [batch_size] that stays
    within the table. *)
Theorem get_batch_df_rows self i d (k : nat) :
  df self = Some d ->
  contains self i = true ->
  Z.of_nat k <= batch_size self ->
  i - min_batch self + Z.of_nat k <= len d ->
  exists batch,
    get_batch_df i self = (Returns batch, self)
    /\ nth_error batch k
       = nth_error d (Z.to_nat (i - min_batch self) + k).
Proof.
  intros Hd Hc Hk Hin.
  destruct (proj1 (contains_true_iff self i) Hc) as (d' & _ & _ & _ & Hlo & _).
  eexists. split; [exact (get_batch_df_present self i d Hd Hc)|].
  apply nth_error_loc; lia.
Qed.

(** X9: for a table that carries the default [RangeIndex], after a
    successful [set_multibatch] with a positive [batch_size], every index in
    the buffer gets a batch of
    [min (batch_size + 1, len(df) - (i - min_batch))] rows: never more than
    [batch_size + 1], and none at all when [i - min_batch] equals the table
    length. *)
Theorem get_batch_df_length_after_set_multibatch d mb self i :
  0 < batch_size self ->
  contains (self_after (set_multibatch d mb self)) i = true ->
  exists batch,
    result_of (get_batch_df i (self_after (set_multibatch d mb self)))
    = Returns batch
    /\ len batch = Z.min (batch_size self + 1) (len d - (i - mb)).
Proof.
  intros Hbs Hc.
  pose proof (proj1 (contains_after_set_multibatch d mb self i Hbs) Hc)
    as (Hne & Hi & Hlo & Hhi).
  revert Hc. rewrite set_multibatch_run by lia. cbv [self_after snd].
  set (filled := {| df := Some d; batch_size := batch_size self;
                    min_batch := mb;
                    max_batch := mb + len d / batch_size self |}).
  intros Hc.
  rewrite (get_batch_df_present filled i d eq_refl Hc). simpl.
  eexists. split; [reflexivity|].
  pose proof (len_nonneg d) as Hlen.
  assert (Hq : len d / batch_size self <= len d).
  { apply Z.div_le_upper_bound; nia. }
  unfold loc, len in *. rewrite length_firstn, length_skipn. lia.
Qed.

(** X10: [clear] empties the buffer whatever it held, keeping only
    [batch_size]; clearing twice is clearing once; and with a non-zero
    [batch_size] a [set_multibatch] after [clear] leaves the same buffer as
    [set_multibatch] alone. *)
Theorem clear_then_set_multibatch d mb self :
  batch_size self <> 0 ->
  self_after (clear self) = new_buffer (batch_size self)
  /\ bind clear (fun _ => clear) self = clear self
  /\ bind clear (fun _ => set_multibatch d mb) self = set_multibatch d mb self.
Proof.
  intros Hbs. split; [reflexivity|]. split; [reflexivity|].
  rewrite (bind_returns _ _ _ _ _ (clear_run self)).
  rewrite !set_multibatch_run by (simpl; exact Hbs). reflexivity.
Qed.

End MultiBatchBufferMore.

Lemma set_multibatch_zero_batch_size_half_done_witness :
  result_of (set_multibatch (range_table 20) 3 (new_buffer 0))
  = Raises ZeroDivisionError
  /\ df (self_after (set_multibatch (range_table 20) 3 (new_buffer 0)))
     = Some (range_table 20)
  /\ max_batch (self_after (set_multibatch (range_table 20) 3 (new_buffer 0)))
     = -1.
Proof.
  destruct (set_multibatch_zero_batch_size_half_done
              (range_table 20) 3 (new_buffer 0) eq_refl)
    as (Hraise & Hdf & _ & Hmax & _).
  split; [exact Hraise|]. split; [exact Hdf|exact Hmax].
Defined.

Lemma indices_in_buffer_after_set_multibatch_witness :
  contains (self_after (set_multibatch (range_table 25) 3 (new_buffer 10))) 5
  = true <->
  len (range_table 25) <> 0 /\ 0 <= 5 /\ 3 <= 5 <= 3 + len (range_table 25) / 10.
Proof.
  apply (indices_in_buffer_after_set_multibatch
           (range_table 25) 3 (new_buffer 10) 5).
  reflexivity.
Defined.

Lemma get_batch_df_rows_witness :
  exists batch,
    get_batch_df 4 buffer_20_3_10 = (Returns batch, buffer_20_3_10)
    /\ nth_error batch 2 = nth_error (range_table 20) 3.
Proof.
  apply (get_batch_df_rows buffer_20_3_10 4 (range_table 20) 2).
  - reflexivity.
  - reflexivity.
  - vm_compute. discriminate.
  - vm_compute. discriminate.
Defined.

Lemma get_batch_df_length_after_set_multibatch_witness :
  exists batch,
    result_of (get_batch_df 5
                 (self_after (set_multibatch (range_table 25) 3 (new_buffer 10))))
    = Returns batch
    /\ len batch = Z.min (10 + 1) (len (range_table 25) - (5 - 3)).
Proof.
  apply (get_batch_df_length_after_set_multibatch
           (range_table 25) 3 (new_buffer 10) 5); reflexivity.
Defined.

Lemma clear_then_set_multibatch_witness :
  bind clear (fun _ => set_multibatch (range_table 20) 7) buffer_20_3_10
  = set_multibatch (range_table 20) 7 buffer_20_3_10.
Proof.
  apply (clear_then_set_multibatch (range_table 20) 7 buffer_20_3_10).
  vm_compute. discriminate.
Defined.

(** ** Part IV: [merge_flow_bins] *)

Section MergeFlowBinsFacts.

Context {V : Type} (add : V -> V -> V).
Implicit Types (values mid : list V) (a b c e x : V).

Lemma nth_error_inner_last a b mid c e :
  nth_error (a :: b :: mid ++ [c; e]) (1 + (List.length mid + 1)) = Some c.
Proof.
  replace (1 + (List.length mid + 1))%nat with (S (S (List.length mid)))
    by lia.
  simpl. rewrite nth_error_app2 by lia.
  rewrite Nat.sub_diag. reflexivity.
Qed.

Lemma nth_error_overflow a b mid c e :
  nth_error (a :: b :: mid ++ [c; e]) (List.length mid + 3) = Some e.
Proof.
  replace (List.length mid + 3)%nat with (S (S (S (List.length mid)))) by lia.
  change (nth_error (mid ++ [c; e]) (S (List.length mid)) = Some e).
  rewrite nth_error_app2 by lia.
  replace (S (List.length mid) - List.length mid)%nat with 1%nat by lia.
  reflexivity.
Qed.

Lemma list_set_inner_last mid c e x :
  list_set (List.length mid) x (mid ++ [c; e]) = mid ++ [x; e].
Proof. induction mid as [|y mid IH]; simpl; [reflexivity|now rewrite IH]. Qed.

Lemma length_four_or_more a b mid c e :
  List.length (a :: b :: mid ++ [c; e]) = (List.length mid + 4)%nat.
Proof. simpl. rewrite length_app. simpl. lia. Qed.

Lemma py_index_first (n : nat) : py_index (S n) 0 = Some 0%nat.
Proof.
  unfold py_index.
  destruct (Z.ltb_spec 0 (Z.of_nat (S n))) as [_|H]; [reflexivity|lia].
Qed.

Lemma py_index_last (n : nat) : py_index (S n) (-1) = Some n.
Proof.
  unfold py_index.
  destruct (Z.leb_spec 0 (-1)) as [H|_]; [lia|].
  destruct (Z.ltb_spec (-1) 0) as [_|H]; [|lia].
  destruct (Z.leb_spec (- Z.of_nat (S n)) (-1)) as [_|H]; [|lia].
  cbn [andb]. f_equal. lia.
Qed.

(** An array of three or more elements, by its ends. *)
Lemma three_or_more values :
  (3 <= List.length values)%nat ->
  (exists a b c, values = [a; b; c])
  \/ (exists a b mid c e, values = a :: b :: mid ++ [c; e]).
Proof.
  intros Hn.
  destruct values as [|a [|b rest]]; simpl in Hn; try lia.
  destruct (exists_last (l:=rest)) as (front & e & Hrest);
    [intros ->; simpl in Hn; lia|].
  subst rest. destruct front as [|c0 front] using rev_ind.
  - left. now exists a, b, e.
  - right. exists a, b, front, c0, e. now rewrite <- app_assoc.
Qed.

(** X11: on an array of at most two elements [merge_flow_bins] raises
    [IndexError] -- the inner slice is empty -- and the array is untouched. *)
Theorem merge_flow_bins_needs_three_elements values :
  (List.length values <= 2)%nat ->
  merge_flow_bins add values = (Raises IndexError, values).
Proof.
  intros Hn.
  unfold merge_flow_bins, bind, read_self, view_getitem, slice_1_to_last.
  simpl.
  replace (List.length values - 2)%nat with 0%nat by lia.
  reflexivity.
Qed.

(** [merge_flow_bins] on an array of four or more elements. *)
Lemma merge_flow_bins_run_long a b mid c e :
  merge_flow_bins add (a :: b :: mid ++ [c; e])
  = (Returns (add b a :: mid ++ [add c e]),
     a :: add b a :: mid ++ [add c e; e]).
Proof.
  unfold merge_flow_bins, slice_1_to_last.
  unfold bind at 1. unfold read_self at 1. cbv beta iota.
  rewrite length_four_or_more.
  replace (List.length mid + 4 - 2)%nat with (S (List.length mid + 1)) by lia.
  set (w := {| view_start := 1; view_size := S (List.length mid + 1) |}).
  assert (H1 : view_getitem w 0 (a :: b :: mid ++ [c; e])
               = (Returns b, a :: b :: mid ++ [c; e])).
  { unfold view_getitem, bind, read_self, w. cbn [view_size view_start].
    rewrite py_index_first. reflexivity. }
  rewrite (bind_returns _ _ _ _ _ H1).
  assert (H2 : getitem 0 (a :: b :: mid ++ [c; e])
               = (Returns a, a :: b :: mid ++ [c; e])).
  { unfold getitem, bind, read_self. cbv beta iota.
    rewrite length_four_or_more.
    replace (List.length mid + 4)%nat with (S (List.length mid + 3)) by lia.
    rewrite py_index_first. reflexivity. }
  rewrite (bind_returns _ _ _ _ _ H2).
  assert (H3 : view_setitem w 0 (add b a) (a :: b :: mid ++ [c; e])
               = (Returns tt, a :: add b a :: mid ++ [c; e])).
  { unfold view_setitem, w. cbn [view_size view_start]. rewrite py_index_first.
    reflexivity. }
  rewrite (bind_returns _ _ _ _ _ H3).
  assert (H4 : view_getitem w (-1) (a :: add b a :: mid ++ [c; e])
               = (Returns c, a :: add b a :: mid ++ [c; e])).
  { unfold view_getitem, bind, read_self, w. cbn [view_size view_start]. cbv beta iota.
    rewrite py_index_last.
    rewrite nth_error_inner_last. reflexivity. }
  rewrite (bind_returns _ _ _ _ _ H4).
  assert (H5 : getitem (-1) (a :: add b a :: mid ++ [c; e])
               = (Returns e, a :: add b a :: mid ++ [c; e])).
  { unfold getitem, bind, read_self. cbv beta iota.
    rewrite length_four_or_more.
    replace (List.length mid + 4)%nat with (S (List.length mid + 3)) by lia.
    rewrite py_index_last, nth_error_overflow. reflexivity. }
  rewrite (bind_returns _ _ _ _ _ H5).
  assert (H6 : view_setitem w (-1) (add c e) (a :: add b a :: mid ++ [c; e])
               = (Returns tt, a :: add b a :: mid ++ [add c e; e])).
  { unfold view_setitem, w. cbn [view_size view_start]. rewrite py_index_last.
    unfold assign.
    replace (1 + (List.length mid + 1))%nat with (S (S (List.length mid)))
      by lia.
    simpl list_set. now rewrite list_set_inner_last. }
  rewrite (bind_returns _ _ _ _ _ H6).
  unfold view_elements, bind, read_self, ret. subst w. simpl.
  f_equal. f_equal. f_equal.
  replace (List.length mid + 1)%nat with (List.length (mid ++ [add c e]))
    by (rewrite length_app; reflexivity).
  replace (mid ++ [add c e; e]) with ((mid ++ [add c e]) ++ [e])
    by (now rewrite <- app_assoc).
  rewrite firstn_app, Nat.sub_diag, firstn_all. simpl. apply app_nil_r.
Qed.

(** [merge_flow_bins] on an array of three elements. *)
Lemma merge_flow_bins_run_three a b c :
  merge_flow_bins add [a; b; c]
  = (Returns [add (add b a) c], [a; add (add b a) c; c]).
Proof. reflexivity. Qed.

(** X12: what [merge_flow_bins] returns and what it does to its argument.
    With four or more elements the result is the inner elements with the
    first element added into the first inner one and the last into the last
    inner one, the others as they were; with three, the single inner element
    receives both.  The array passed in is itself overwritten at those inner
    positions (the result is a view of it); its two outer elements stay. *)
Theorem merge_flow_bins_result a b mid c e :
  merge_flow_bins add (a :: b :: mid ++ [c; e])
  = (Returns (add b a :: mid ++ [add c e]),
     a :: add b a :: mid ++ [add c e; e])
  /\ merge_flow_bins add [a; b; c]
     = (Returns [add (add b a) c], [a; add (add b a) c; c]).
Proof.
  split; [apply merge_flow_bins_run_long|apply merge_flow_bins_run_three].
Qed.

(** X13: where [add] is associative and commutative with a zero (exact
    arithmetic, as for integer counts), merging the flow bins keeps the sum
    of the array: the result of [merge_flow_bins] on three or more elements
    adds up to what the whole argument added up to. *)
Theorem merge_flow_bins_keeps_total (zero : V) values :
  (forall x y z, add x (add y z) = add (add x y) z) ->
  (forall x y, add x y = add y x) ->
  (forall x, add x zero = x) ->
  (3 <= List.length values)%nat ->
  exists merged,
    result_of (merge_flow_bins add values) = Returns merged
    /\ List.length merged = (List.length values - 2)%nat
    /\ total add zero merged = total add zero values.
Proof.
  intros Hassoc Hcomm Hzero Hn.
  assert (Htail : forall l x y,
             total add zero (l ++ [x; y]) = total add zero (l ++ [add x y])).
  { induction l as [|z l IH]; intros x y; simpl.
    - now rewrite Hzero, Hzero.
    - now rewrite IH. }
  destruct (three_or_more values Hn)
    as [(a & b & c & ->)|(a & b & mid & c & e & ->)].
  - rewrite (merge_flow_bins_run_three a b c). eexists. split; [reflexivity|]. split; [reflexivity|].
    simpl. rewrite !Hzero. rewrite (Hcomm b a). now rewrite <- Hassoc.
  - rewrite (merge_flow_bins_run_long a b mid c e). eexists. split; [reflexivity|]. split.
    + simpl. rewrite !length_app. simpl. lia.
    + simpl. rewrite Htail. rewrite (Hcomm b a). now rewrite <- Hassoc.
Qed.

End MergeFlowBinsFacts.

Lemma merge_flow_bins_needs_three_elements_witness :
  merge_flow_bins Z.add [4; 5] = (Raises IndexError, [4; 5]).
Proof.
  apply (merge_flow_bins_needs_three_elements Z.add [4; 5]).
  simpl. lia.
Defined.

Lemma merge_flow_bins_keeps_total_witness :
  exists merged,
    result_of (merge_flow_bins Z.add [1; 10; 20; 30; 2]) = Returns merged
    /\ List.length merged = 3%nat
    /\ total Z.add 0 merged = total Z.add 0 [1; 10; 20; 30; 2].
Proof.
  apply (merge_flow_bins_keeps_total Z.add 0 [1; 10; 20; 30; 2]).
  - intros x y z. lia.
  - intros x y. lia.
  - intros x. lia.
  - simpl. lia.
Defined.

(** ** Part IV: the inputs of the ROC curve *)

Section RocInputsFacts.

Local Open Scope nat_scope.

Context {Score Weight : Type}.
Implicit Types (scores predicted validation : list (ScoreBatch Score)).
Implicit Types (arr : ScoreBatch Score) (weights : list Weight).
Implicit Types (b n c sclass batch : nat).

Lemma column_regular arr n c sclass :
  List.length arr = n ->
  Forall (fun row => List.length row = c) arr ->
  sclass < c ->
  exists col, column arr sclass = Returns col /\ List.length col = n.
Proof.
  revert n. induction arr as [|row rest IH]; intros n Hn Hrows Hs.
  - exists []. split; [reflexivity|exact Hn].
  - inversion Hrows as [|? ? Hrow Hrest]; subst.
    destruct (IH (List.length rest) eq_refl Hrest Hs) as (col & Hcol & Hlen).
    destruct (nth_error row sclass) as [x|] eqn:Hx.
    + exists (x :: col). simpl. rewrite Hx, Hcol. simpl.
      split; [reflexivity|now rewrite Hlen].
    + apply nth_error_None in Hx. lia.
Qed.

Lemma batch_column_regular scores b n c batch sclass :
  has_shape3 scores b n c ->
  batch < b -> sclass < c ->
  exists col,
    batch_column scores batch sclass = Returns col /\ List.length col = n.
Proof.
  intros [Hb Hall] Hbatch Hs. unfold batch_column.
  destruct (nth_error scores batch) as [arr|] eqn:Harr.
  - pose proof (nth_error_In _ _ Harr) as Hin.
    rewrite Forall_forall in Hall. destruct (Hall arr Hin) as [Hn Hrows].
    exact (column_regular arr n c sclass Hn Hrows Hs).
  - apply nth_error_None in Harr. lia.
Qed.

(** The loop over the batches [start, start + k): the weights double in
    every round, the scores grow by one batch. *)
Lemma combine_batches_lengths predicted validation b n c sclass k :
  has_shape3 predicted b n c ->
  has_shape3 validation b n c ->
  sclass < c ->
  forall start (w : list Weight) (p v : list Score),
    start + k <= b ->
    exists w' p' v',
      combine_batches predicted validation sclass (seq start k) (w, p, v)
      = Returns (w', p', v')
      /\ List.length w' = List.length w * 2 ^ k
      /\ List.length p' = List.length p + k * n
      /\ List.length v' = List.length v + k * n.
Proof.
  intros Hp Hv Hs. induction k as [|k IH]; intros start w p v Hk.
  - exists w, p, v. simpl. repeat split; lia.
  - destruct (batch_column_regular predicted b n c start sclass Hp)
      as (pc & Hpc & Hpl); [lia|exact Hs|].
    destruct (batch_column_regular validation b n c start sclass Hv)
      as (vc & Hvc & Hvl); [lia|exact Hs|].
    destruct (IH (S start) (w ++ w) (p ++ pc) (v ++ vc))
      as (w' & p' & v' & Hrun & Hw & Hpl' & Hvl'); [lia|].
    exists w', p', v'.
    cbn [seq combine_batches]. rewrite Hpc, Hvc. cbn [and_so].
    rewrite Hrun. split; [reflexivity|].
    rewrite Hw, Hpl', Hvl', !length_app, Hpl, Hvl.
    rewrite Nat.pow_succ_r'. repeat split; lia.
Qed.

Lemma pow2_above k : k + 1 <= 2 ^ k.
Proof.
  induction k as [|k IH]; [simpl; lia|].
  rewrite Nat.pow_succ_r'. lia.
Qed.

Lemma pow2_strictly_above k : 2 <= k -> k + 1 < 2 ^ k.
Proof.
  intros Hk. induction k as [|k IH]; [lia|].
  rewrite Nat.pow_succ_r'.
  destruct (Nat.eq_dec k 1) as [->|Hne]; [simpl; lia|].
  assert (k + 1 < 2 ^ k) by (apply IH; lia). lia.
Qed.

(** The round of [plot_ROC] for one class, run on a regular array. *)
Lemma roc_inputs_run predicted validation weights b n c sclass :
  has_shape3 predicted b n c ->
  has_shape3 validation b n c ->
  1 <= b ->
  sclass < c ->
  exists v_scores p_scores sample_weights,
    roc_inputs predicted validation weights sclass
    = Returns (v_scores, p_scores, sample_weights)
    /\ List.length p_scores = b * n
    /\ List.length v_scores = b * n
    /\ List.length sample_weights = List.length weights * 2 ^ (b - 1).
Proof.
  intros Hp Hv Hb Hs.
  destruct (batch_column_regular predicted b n c 0 sclass Hp)
    as (p0 & Hp0 & Hpl); [lia|exact Hs|].
  destruct (batch_column_regular validation b n c 0 sclass Hv)
    as (v0 & Hv0 & Hvl); [lia|exact Hs|].
  destruct (combine_batches_lengths predicted validation b n c sclass (b - 1)
              Hp Hv Hs 1 weights p0 v0)
    as (w' & p' & v' & Hrun & Hw & Hpl' & Hvl'); [lia|].
  exists v', p', w'.
  unfold roc_inputs. rewrite Hp0, Hv0. cbn [and_so].
  rewrite (proj1 Hp), Hrun. cbn [and_so].
  split; [reflexivity|].
  rewrite Hw, Hpl', Hvl', Hpl, Hvl.
  repeat split; destruct b; try lia; simpl; lia.
Qed.

(** X14: for score arrays of shape (b, n, c) with at least one batch and a
    class below [c], the round of [plot_ROC] for that class reaches
    [roc_curve] with [b * n] predicted and [b * n] validation scores, but
    with [len(weights) * 2 ^ (b - 1)] sample weights: the weights are
    doubled, not extended, once per further batch. *)
Theorem roc_inputs_lengths predicted validation weights b n c sclass :
  has_shape3 predicted b n c ->
  has_shape3 validation b n c ->
  1 <= b ->
  sclass < c ->
  exists v_scores p_scores sample_weights,
    roc_inputs predicted validation weights sclass
    = Returns (v_scores, p_scores, sample_weights)
    /\ List.length p_scores = b * n
    /\ List.length v_scores = b * n
    /\ List.length sample_weights = List.length weights * 2 ^ (b - 1).
Proof. apply roc_inputs_run. Qed.

(** X15: so the sample weights match the scores in number only for few
    batches.  With [n > 0] events per batch: when [weights] holds one
    weight per event of a batch ([n] of them), the numbers agree exactly
    for one or two batches; when it holds one weight per event of all the
    batches ([b * n] of them), they agree only for a single batch. *)
Theorem roc_inputs_weights_match_scores predicted validation weights
        b n c sclass :
  has_shape3 predicted b n c ->
  has_shape3 validation b n c ->
  1 <= b -> 1 <= n ->
  sclass < c ->
  exists v_scores p_scores sample_weights,
    roc_inputs predicted validation weights sclass
    = Returns (v_scores, p_scores, sample_weights)
    /\ (List.length weights = n ->
        (List.length sample_weights = List.length p_scores <-> b <= 2))
    /\ (List.length weights = b * n ->
        (List.length sample_weights = List.length p_scores <-> b = 1)).
Proof.
  intros Hp Hv Hb Hn Hs.
  destruct (roc_inputs_run predicted validation weights b n c sclass
              Hp Hv Hb Hs) as (vs & ps & sw & Hrun & Hpl & _ & Hwl).
  exists vs, ps, sw. split; [exact Hrun|].
  rewrite Hwl, Hpl.
  destruct b as [|k]; [lia|].
  replace (S k - 1) with k by lia.
  pose proof (pow2_above k) as Hge.
  split; intros Hw; rewrite Hw.
  - split.
    + intros Heq.
      destruct (Nat.le_gt_cases k 1) as [Hk|Hk]; [lia|].
      pose proof (pow2_strictly_above k Hk) as Hgt. nia.
    + intros Hk. assert (Hcase : k = 0 \/ k = 1) by lia.
      destruct Hcase as [->| ->]; simpl; lia.
  - split.
    + intros Heq.
      destruct k as [|k']; [reflexivity|].
      assert (H2 : 2 <= 2 ^ S k').
      { pose proof (pow2_above k'). rewrite Nat.pow_succ_r'. lia. }
      exfalso. nia.
    + intros Hk. assert (k = 0) by lia. subst k. simpl. lia.
Qed.

End RocInputsFacts.

Lemma three_batches_shape : has_shape3 three_batches 3 2 2.
Proof. split; [reflexivity|]. repeat constructor. Qed.

Lemma roc_inputs_lengths_witness :
  exists v_scores p_scores sample_weights,
    roc_inputs three_batches three_batches [7; 8] 1
    = Returns (v_scores, p_scores, sample_weights)
    /\ List.length p_scores = (3 * 2)%nat
    /\ List.length v_scores = (3 * 2)%nat
    /\ List.length sample_weights = (List.length [7; 8] * 2 ^ (3 - 1))%nat.
Proof.
  apply (roc_inputs_lengths three_batches three_batches [7; 8] 3 2 2 1).
  - split; [reflexivity|]. repeat constructor.
  - split; [reflexivity|]. repeat constructor.
  - lia.
  - lia.
Defined.

Lemma roc_inputs_weights_match_scores_witness :
  exists v_scores p_scores sample_weights,
    roc_inputs three_batches three_batches [7; 8] 1
    = Returns (v_scores, p_scores, sample_weights)
    /\ (List.length [7; 8] = 2%nat ->
        (List.length sample_weights = List.length p_scores <-> (3 <= 2)%nat))
    /\ (List.length [7; 8] = (3 * 2)%nat ->
        (List.length sample_weights = List.length p_scores <-> 3%nat = 1%nat)).
Proof.
  apply (roc_inputs_weights_match_scores
           three_batches three_batches [7; 8] 3 2 2 1).
  - split; [reflexivity|]. repeat constructor.
  - split; [reflexivity|]. repeat constructor.
  - lia.
  - lia.
  - lia.
Defined.

(** ** Part IV: [keys_to_list] and the histograms of [PlotterBase] *)

Section SortedFacts.

Lemma str_le_trans s t u : str_le s t -> str_le t u -> str_le s u.
Proof.
  unfold str_le, String.leb. revert t u.
  induction s as [|a s IH]; intros [|b t] [|c u]; simpl;
    try reflexivity; try discriminate.
  unfold Ascii.compare.
  destruct (N.compare_spec (Ascii.N_of_ascii a) (Ascii.N_of_ascii b)) as [E1|L1|G1];
    destruct (N.compare_spec (Ascii.N_of_ascii b) (Ascii.N_of_ascii c)) as [E2|L2|G2];
    destruct (N.compare_spec (Ascii.N_of_ascii a) (Ascii.N_of_ascii c)) as [E3|L3|G3];
    try lia; try (intros; reflexivity); try (intros; discriminate).
  apply IH.
Qed.

Lemma insert_sorted_perm x l : Permutation (x :: l) (insert_sorted x l).
Proof.
  induction l as [|y l IH]; simpl; [reflexivity|].
  destruct (String.leb x y); [reflexivity|].
  rewrite perm_swap. now constructor.
Qed.

Lemma sorted_perm l : Permutation l (sorted l).
Proof.
  induction l as [|x l IH]; simpl; [constructor|].
  rewrite <- insert_sorted_perm. now constructor.
Qed.

Lemma insert_sorted_ordered x l :
  StronglySorted str_le l -> StronglySorted str_le (insert_sorted x l).
Proof.
  induction l as [|y l IH]; intros Hs; simpl.
  - repeat constructor.
  - apply StronglySorted_inv in Hs. destruct Hs as [Hl Hy].
    destruct (String.leb x y) eqn:Hxy.
    + constructor; [now constructor|].
      constructor; [exact Hxy|].
      eapply Forall_impl; [|exact Hy].
      intros z Hz. exact (str_le_trans x y z Hxy Hz).
    + constructor; [now apply IH|].
      eapply Permutation_Forall; [apply insert_sorted_perm|].
      constructor; [|exact Hy].
      destruct (String.leb_total x y) as [H|H]; [congruence|exact H].
Qed.

Lemma sorted_ordered l : StronglySorted str_le (sorted l).
Proof.
  induction l as [|x l IH]; simpl; [constructor|].
  now apply insert_sorted_ordered.
Qed.

(** A list has one sorted arrangement only. *)
Lemma ordered_unique l1 :
  forall l2,
    StronglySorted str_le l1 -> StronglySorted str_le l2 ->
    Permutation l1 l2 -> l1 = l2.
Proof.
  induction l1 as [|x l1 IH]; intros l2 H1 H2 Hp.
  - symmetry. now apply Permutation_nil.
  - destruct l2 as [|y l2];
      [apply Permutation_sym, Permutation_nil in Hp; discriminate|].
    apply StronglySorted_inv in H1. destruct H1 as [H1 Hx].
    apply StronglySorted_inv in H2. destruct H2 as [H2 Hy].
    assert (Hxy : x = y).
    { assert (Hin1 : In x (y :: l2))
        by (eapply Permutation_in; [exact Hp|now left]).
      assert (Hin2 : In y (x :: l1))
        by (eapply Permutation_in; [apply Permutation_sym; exact Hp|now left]).
      destruct Hin1 as [->|Hin1]; [reflexivity|].
      destruct Hin2 as [->|Hin2]; [reflexivity|].
      rewrite Forall_forall in Hx, Hy.
      apply String.leb_antisym; [apply Hx|apply Hy]; assumption. }
    subst y. f_equal. apply IH; trivial.
    eapply Permutation_cons_inv. exact Hp.
Qed.

Lemma sorted_of_permutation l l' : Permutation l l' -> sorted l = sorted l'.
Proof.
  intros Hp. apply ordered_unique; try apply sorted_ordered.
  rewrite <- (sorted_perm l), <- (sorted_perm l'). exact Hp.
Qed.

Lemma In_sorted x l : In x (sorted l) <-> In x l.
Proof.
  split; intros H.
  - eapply Permutation_in; [apply Permutation_sym, sorted_perm|exact H].
  - eapply Permutation_in; [apply sorted_perm|exact H].
Qed.

(** X16: [keys_to_list] returns the keys as strings in ascending order, each
    as often as it was given, and the result does not depend on the order
    in which the keys came. *)
Theorem keys_to_list_sorted_whatever_the_order (keys keys' : list PyKey) :
  StronglySorted str_le (keys_to_list keys)
  /\ Permutation (map py_str keys) (keys_to_list keys)
  /\ (Permutation keys keys' -> keys_to_list keys = keys_to_list keys').
Proof.
  unfold keys_to_list. split; [apply sorted_ordered|].
  split; [apply sorted_perm|].
  intros Hp. apply sorted_of_permutation. now apply Permutation_map.
Qed.

End SortedFacts.

Section PlotterBaseFacts.

Context {Hist : Type}.
Implicit Types (self : PlotterBase Hist) (hists : Dict (Dict Hist)).
Implicit Types (named found : Dict Hist) (name k : PyKey).
Implicit Types (types names : list string).

Lemma key_eqb_eq (a b : PyKey) : key_eqb a b = true <-> a = b.
Proof.
  destruct a as [x|], b as [y|]; simpl; try (split; congruence).
  rewrite String.eqb_eq. split; congruence.
Qed.

Lemma key_eqb_refl (a : PyKey) : key_eqb a a = true.
Proof. now apply key_eqb_eq. Qed.



Lemma dict_get_set_same {V : Type} (d : Dict V) k (v : V) :
  dict_get (dict_set d k v) k = Some v.
Proof.
  induction d as [|[k' v'] d IH]; simpl.
  - now rewrite key_eqb_refl.
  - destruct (key_eqb k k') eqn:Hk; simpl; rewrite Hk; [reflexivity|exact IH].
Qed.

Lemma dict_get_set_other {V : Type} (d : Dict V) k k0 (v : V) :
  k0 <> k -> dict_get (dict_set d k v) k0 = dict_get d k0.
Proof.
  intros Hne. induction d as [|[k' v'] d IH]; simpl.
  - destruct (key_eqb k0 k) eqn:Hk; [apply key_eqb_eq in Hk; contradiction|].
    reflexivity.
  - destruct (key_eqb k k') eqn:Hk; simpl.
    + apply key_eqb_eq in Hk. subst k'.
      destruct (key_eqb k0 k) eqn:Hk0; [apply key_eqb_eq in Hk0; contradiction|].
      reflexivity.
    + destruct (key_eqb k0 k'); [reflexivity|exact IH].
Qed.




(** X18: a [None] among the sequence types makes [__post_init__] raise
    [KeyError], unless the string ["None"] happens to be a key too: the
    sequence types are kept as strings, and [str(None)] is looked up as
    a key. *)
Theorem post_init_None_key_raises hists :
  In None (dict_keys hists) ->
  dict_get hists (Some "None"%string) = None ->
  __post_init__ hists = inl KeyError.
Proof.
  intros Hnone Hmissing.
  assert (Hin : In "None"%string (keys_to_list (dict_keys hists))).
  { unfold keys_to_list. rewrite In_sorted, in_map_iff.
    now exists None. }
  assert (Hfail : forall types names,
             In "None"%string types ->
             exists e, extend_histogram_names hists types names = inl e
                       /\ e = KeyError).
  { induction types as [|st types IH]; intros names Hst; [contradiction|].
    simpl. destruct (dict_get hists (Some st)) as [named|] eqn:Hget.
    - destruct Hst as [->|Hst]; [congruence|]. now apply IH.
    - now exists KeyError. }
  unfold __post_init__.
  destruct (Hfail _ [] Hin) as (e & Hrun & ->). now rewrite Hrun.
Qed.

(** The loop of [get_histograms_across_sequences], run to its end. *)
Lemma across_sequences_spec self name types :
  forall found,
    (across_sequences self name types found = inl KeyError <->
     exists st, In st types /\ get_histogram self (Some st) name = inl KeyError)
    /\ forall result,
        across_sequences self name types found = inr result ->
        (forall st, In st types ->
                    inr (A:=dict_exn) (dict_get result (Some st))
                    = match get_histogram self (Some st) name with
                      | inr h => inr (Some h)
                      | inl e => inl e
                      end)
        /\ (forall k, (forall st, In st types -> k <> Some st) ->
                      dict_get result k = dict_get found k).
Proof.
  assert (Honly : forall st, get_histogram self (Some st) name
                             <> inl AssertionError).
  { intros st. unfold get_histogram.
    destruct (dict_get (histograms self) (Some st)) as [named|];
      [|discriminate].
    destruct (dict_get named name); discriminate. }
  induction types as [|st types IH]; intros found; simpl.
  - split.
    + split; [discriminate|intros (st & [] & _)].
    + intros result Hrun. inversion Hrun; subst result.
      split; [intros st []|reflexivity].
  - destruct (get_histogram self (Some st) name) as [e|h] eqn:Hget.
    + split.
      * split.
        -- intros Heq. inversion Heq; subst e. exists st. split; [now left|exact Hget].
        -- intros _. destruct e; [exfalso; exact (Honly st Hget)|reflexivity].
      * intros result Hrun. discriminate.
    + destruct (IH (dict_set found (Some st) h)) as [Herr Hok]. split.
      * rewrite Herr. split.
        -- intros (st' & Hin & Hst'). exists st'. split; [now right|exact Hst'].
        -- intros (st' & [->|Hin] & Hst'); [congruence|].
           now exists st'.
      * intros result Hrun. destruct (Hok result Hrun) as [Hin Hout]. split.
        -- intros st' [->|Hst'].
           ++ rewrite Hget.
              destruct (in_dec string_dec st' types) as [Hi|Hni].
              ** rewrite (Hin st' Hi), Hget. reflexivity.
              ** rewrite Hout, dict_get_set_same; [reflexivity|].
                 intros st'' Hst'' Heq. inversion Heq. subst st''.
                 contradiction.
           ++ exact (Hin st' Hst').
        -- intros k Hk. rewrite Hout.
           ++ apply dict_get_set_other. apply Hk. now left.
           ++ intros st' Hst'. apply Hk. now right.
Qed.

Lemma across_sequences_only_KeyError self name types :
  forall found e,
    across_sequences self name types found = inl e -> e = KeyError.
Proof.
  induction types as [|st types IH]; intros found e; simpl; [discriminate|].
  unfold get_histogram.
  destruct (dict_get (histograms self) (Some st)) as [named|].
  - destruct (dict_get named name) as [h|].
    + apply IH.
    + intros H. now inversion H.
  - intros H. now inversion H.
Qed.

(** X19: [get_histograms_across_sequences] returns a dict exactly when
    every sequence type of the plotter has a histogram of that name, and
    then the dict maps every sequence type to that histogram and holds
    nothing else; as soon as one sequence type lacks the name it raises
    [KeyError] -- also for a name that is listed in [histogram_names]
    because another sequence type has it. *)
Theorem get_histograms_across_sequences_needs_every_sequence self name :
  ((exists result, get_histograms_across_sequences self name = inr result) <->
   forall st, In st (sequence_types self) ->
              exists h, get_histogram self (Some st) name = inr h)
  /\ (get_histograms_across_sequences self name = inl KeyError <->
      exists st, In st (sequence_types self)
                 /\ get_histogram self (Some st) name = inl KeyError)
  /\ forall result,
      get_histograms_across_sequences self name = inr result ->
      (forall st h, In st (sequence_types self) ->
                    get_histogram self (Some st) name = inr h ->
                    dict_get result (Some st) = Some h)
      /\ (forall k, (forall st, In st (sequence_types self) -> k <> Some st) ->
                    dict_get result k = None).
Proof.
  unfold get_histograms_across_sequences.
  destruct (across_sequences_spec self name (sequence_types self) [])
    as [Herr Hok].
  pose proof (across_sequences_only_KeyError self name (sequence_types self) [])
    as Honly.
  split; [|split].
  - split.
    + intros [result Hrun] st Hin.
      destruct (Hok result Hrun) as [Hval _]. specialize (Hval st Hin).
      destruct (get_histogram self (Some st) name) as [e|h];
        [discriminate|now exists h].
    + intros Hall.
      destruct (across_sequences self name (sequence_types self) [])
        as [e|result] eqn:Hrun; [|now exists result].
      pose proof (Honly e eq_refl) as ->.
      destruct (proj1 Herr eq_refl) as (st & Hin & Hst).
      destruct (Hall st Hin) as [h Hh]. congruence.
  - exact Herr.
  - intros result Hrun. destruct (Hok result Hrun) as [Hval Hout]. split.
    + intros st h Hin Hget. specialize (Hval st Hin).
      rewrite Hget in Hval. now inversion Hval.
    + intros k Hk. now rewrite (Hout k Hk).
Qed.

End PlotterBaseFacts.


Lemma post_init_None_key_raises_witness :
  __post_init__ [(None, [(Some "mjj"%string, 1)])] = inl KeyError.
Proof.
  apply (post_init_None_key_raises [(None, [(Some "mjj"%string, 1)])]).
  - now left.
  - reflexivity.
Defined.

(** [mjj] is there for both sequence types; [score_1], though listed among
    the histogram names, for training only. *)
Example across_sequences_shared_name :
  get_histograms_across_sequences example_plotter (Some "mjj"%string)
  = inr [(Some "training"%string, 3); (Some "validation"%string, 2)].
Proof. reflexivity. Qed.

Example across_sequences_partial_name :
  In "score_1"%string (histogram_names example_plotter)
  /\ get_histograms_across_sequences example_plotter (Some "score_1"%string)
     = inl KeyError.
Proof. split; [simpl; tauto|reflexivity]. Qed.

(** ** Part IV: the files of [plot_history] *)

Section PlotHistoryFacts.

Variable pjoin : string -> string -> string.

Lemma nested_history_shift k outdir :
  nested_history pjoin k (pjoin outdir "history")
  = nested_history pjoin (S k) outdir.
Proof.
  unfold nested_history. induction k as [|k IH]; simpl; [reflexivity|].
  now rewrite IH.
Qed.

(** X20: [plot_history] joins ["history"] onto [outdir] again in every round
    of its loop, so the directories nest: the plots of the accuracy type at
    position [k] (counted from 0) are saved in [outdir] with ["history"]
    joined on [k + 1] times, after a [makedirs] of that directory; only
    those of the first type land in [outdir/history]. *)
Theorem plot_history_nests_directories accuracy_types :
  forall outdir (k : nat) accuracy_type,
    nth_error accuracy_types k = Some accuracy_type ->
    let dir := nested_history pjoin (S k) outdir in
    exists before after,
      plot_history_events pjoin accuracy_types outdir
      = before
        ++ [ Makedirs dir;
             Savefig (pjoin dir ("history_" ++ accuracy_type ++ ".png")%string);
             Savefig (pjoin dir ("history_" ++ accuracy_type ++ ".pdf")%string) ]
        ++ after
      /\ List.length before = (3 * k)%nat.
Proof.
  induction accuracy_types as [|t types IH]; intros outdir k accuracy_type Hk.
  - destruct k; discriminate.
  - destruct k as [|k]; simpl in Hk.
    + inversion Hk; subst t. simpl.
      exists [], (plot_history_events pjoin types (pjoin outdir "history")).
      split; reflexivity.
    + destruct (IH (pjoin outdir "history") k accuracy_type Hk)
        as (before & after & Hrun & Hlen).
      rewrite nested_history_shift in Hrun.
      eexists (_ :: _ :: _ :: before), after. split.
      * simpl. rewrite Hrun. reflexivity.
      * simpl. rewrite Hlen. lia.
Qed.

End PlotHistoryFacts.

Lemma plot_history_nests_directories_witness :
  exists before after,
    plot_history_events slash_join ["acc"; "acc"]%string "out"
    = before
      ++ [ Makedirs "out/history/history";
           Savefig "out/history/history/history_acc.png";
           Savefig "out/history/history/history_acc.pdf" ]
      ++ after
    /\ List.length before = 3%nat.
Proof.
  apply (plot_history_nests_directories slash_join
           ["acc"; "acc"]%string "out"%string 1 "acc"%string).
  reflexivity.
Defined.
